(** * Priority-lead pipeline of [streamlit_app.py]

    A shallow embedding of the script: the Excel loader (section 4 of the
    script), the priority filter (section 5) and the report assembler
    [gerar_relatorio] (section 6), together with the credential lookup that
    precedes them (section 2).

    Python text is a sequence of Unicode code points, a pandas [Timestamp] is
    a count of nanoseconds since 1970-01-01, a [DataFrame] is an index plus
    named columns of cells, and the script's control flow ([st.stop()],
    exceptions, the sequential calls to the chat API) is written with an
    explicit outcome type and explicit state passing. *)

From Stdlib Require Import String Ascii.
From Stdlib Require Import ZArith NArith List Bool Lia Sorted.
Import ListNotations.
Open Scope string_scope.
Open Scope list_scope.

Set Implicit Arguments.

(** ** Python text *)

(** A Python [str]: its code points, in order. *)
Definition pystr := list N.

(** Decoding of the UTF-8 bytes of a literal of this file into code points. *)
Fixpoint utf8 (bs : list N) : pystr :=
  match bs with
  | [] => []
  | b :: r =>
    if (b <? 128)%N then b :: utf8 r
    else if (b <? 224)%N then
      match r with
      | c1 :: r1 => ((b mod 32) * 64 + c1 mod 64)%N :: utf8 r1
      | _ => []
      end
    else if (b <? 240)%N then
      match r with
      | c1 :: c2 :: r2 =>
        ((b mod 16) * 4096 + (c1 mod 64) * 64 + c2 mod 64)%N :: utf8 r2
      | _ => []
      end
    else
      match r with
      | c1 :: c2 :: c3 :: r3 =>
        ((b mod 8) * 262144 + (c1 mod 64) * 4096 + (c2 mod 64) * 64
         + c3 mod 64)%N :: utf8 r3
      | _ => []
      end
  end.

Fixpoint bytes_of (s : string) : list N :=
  match s with
  | EmptyString => []
  | String a r => N_of_ascii a :: bytes_of r
  end.

(** [u "..."] is the Python literal ["..."]. *)
Definition u (s : string) : pystr := utf8 (bytes_of s).

(** [str.isspace] on one code point: the characters Python treats as
    whitespace ([_PyUnicode_IsWhitespace]). *)
Definition isspace (c : N) : bool :=
  ((9 <=? c) && (c <=? 13) || (28 <=? c) && (c <=? 32)
   || (c =? 133) || (c =? 160) || (c =? 5760)
   || (8192 <=? c) && (c <=? 8202)
   || (c =? 8232) || (c =? 8233) || (c =? 8239) || (c =? 8287)
   || (c =? 12288))%N.

(** [str.split()] with no argument: the maximal runs of non-whitespace
    characters.  [cur] is the run being read, reversed. *)
Fixpoint split_go (cur : pystr) (s : pystr) : list pystr :=
  match s with
  | [] => match cur with [] => [] | _ => [rev cur] end
  | c :: r =>
    if isspace c
    then match cur with [] => split_go [] r | _ => rev cur :: split_go [] r end
    else split_go (c :: cur) r
  end.

Definition split (s : pystr) : list pystr := split_go [] s.

(** [sep.join(parts)] for the empty separator. *)
Definition join (parts : list pystr) : pystr := List.concat parts.


(** ** Case-insensitive regular-expression search ([re.IGNORECASE]) *)

(** The lower-case mapping the regex engine applies to a character of the
    text ([sre_lower_unicode]), on every character whose lower case is a
    Latin-1 letter: the only letters the pattern of this script is made of.
    Characters of other scripts are left as they are, so the search below
    is that of Python for patterns made of Latin-1 characters, as the one
    of line 93 is, and is not meant for patterns in other scripts. *)
Definition sre_lower (c : N) : N :=
  (if (65 <=? c) && (c <=? 90) then c + 32
   else if (192 <=? c) && (c <=? 222) && negb (c =? 215) then c + 32
   else if c =? 304 then 105
   else if c =? 376 then 255
   else if c =? 7838 then 223
   else if c =? 8490 then 107
   else if c =? 8491 then 229
   else c)%N.

(** The engine's table of lower-case letters that also stand for one
    another ([_ignorecase_fixes]), restricted to the Latin letters:
    i and dotless i, s and long s, the micro sign and mu. *)
Definition ignorecase_fixes (lo : N) : list N :=
  (if lo =? 105 then [305] else if lo =? 305 then [105]
   else if lo =? 115 then [383] else if lo =? 383 then [115]
   else if lo =? 181 then [956] else if lo =? 956 then [181]
   else [])%N.

(** A literal [p] of the pattern against a character [c] of the text. *)
Definition literal_ignorecase (p c : N) : bool :=
  let lo := sre_lower p in
  (sre_lower c =? lo)%N || existsb (N.eqb (sre_lower c)) (ignorecase_fixes lo).

(** The characters that have a meaning of their own in a pattern. *)
Definition re_special (c : N) : bool :=
  existsb (N.eqb c) (u ".^$*+?{}[]\()").

(** Parsing of a pattern that is an alternation of literal words: the words
    between the bars.  A pattern with any other operator is not handled. *)
Fixpoint re_parse_go (cur : pystr) (pat : pystr) : option (list pystr) :=
  match pat with
  | [] => Some [rev cur]
  | c :: r =>
    if (c =? 124)%N then option_map (cons (rev cur)) (re_parse_go [] r)
    else if re_special c then None
    else re_parse_go (c :: cur) r
  end.

Definition re_parse (pat : pystr) : option (list pystr) := re_parse_go [] pat.

(** One alternative matched at the head of the text. *)
Fixpoint match_here (lit : pystr) (s : pystr) : bool :=
  match lit, s with
  | [], _ => true
  | _ :: _, [] => false
  | p :: lit', c :: s' => literal_ignorecase p c && match_here lit' s'
  end.

(** [regex.search(s) is not None]: the alternatives are tried in order at
    each position of the text, from left to right. *)
Fixpoint re_search (alts : list pystr) (s : pystr) : bool :=
  existsb (fun lit => match_here lit s) alts
  || match s with
     | [] => false
     | _ :: r => re_search alts r
     end.

(** Line 93 of the script. *)
Definition keywords : pystr :=
  u "repique|novo repique|objeção|objeções|urgente|fechar|matricula|interessado|proposta".

Definition keyword_set : list pystr :=
  [u "repique"; u "novo repique"; u "objeção"; u "objeções"; u "urgente";
   u "fechar"; u "matricula"; u "interessado"; u "proposta"].

(** Some stretch of the text passes the test [t] against the word, letter
    by letter. *)
Definition occurs (t : N -> N -> bool) (word s : pystr) : Prop :=
  exists pre mid post,
    s = pre ++ mid ++ post /\
    Forall2 (fun p c => t p c = true) word mid.

(** ** Letter case, as the specification has it *)

(** The upper-case form of a character, by Unicode's simple case mapping, on
    the letters of the Latin-1 range and the characters that share a case
    form with one of them: a to z, the accented letters, y with diaeresis,
    dotless i, long s, the micro sign and mu.  Other characters are left as
    they are. *)
Definition upper_case (c : N) : N :=
  (if (97 <=? c) && (c <=? 122) then c - 32
   else if (224 <=? c) && (c <=? 254) && negb (c =? 247) then c - 32
   else if c =? 255 then 376
   else if c =? 305 then 73
   else if c =? 383 then 83
   else if (c =? 181) || (c =? 956) then 924
   else c)%N.

(** The lower-case form, likewise: A to Z, the accented capitals, dotted
    capital I, capital Y with diaeresis, capital sharp s, the Kelvin and
    Angstrom signs, capital mu. *)
Definition lower_case (c : N) : N :=
  (if (65 <=? c) && (c <=? 90) then c + 32
   else if (192 <=? c) && (c <=? 222) && negb (c =? 215) then c + 32
   else if c =? 304 then 105
   else if c =? 376 then 255
   else if c =? 924 then 956
   else if c =? 7838 then 223
   else if c =? 8490 then 107
   else if c =? 8491 then 229
   else c)%N.

(** Two characters are the same letter, letter case apart: they have the
    same upper-case form or the same lower-case form. *)
Definition same_letter (a b : N) : Prop :=
  upper_case a = upper_case b \/ lower_case a = lower_case b.

(** [same_letter] as a test. *)
Definition same_letterb (a b : N) : bool :=
  ((upper_case a =? upper_case b) || (lower_case a =? lower_case b))%N.

(** The characters that [upper_case] or [lower_case] can give or move: the
    Latin-1 range and nine characters beyond it. *)
Definition latin_chars : list N :=
  (map N.of_nat (seq 0 256)
   ++ [304; 305; 376; 383; 924; 956; 7838; 8490; 8491])%N.

(** The text holds the word, letter case apart: some stretch of the text
    is the word letter by letter, up to case. *)
Definition contains_nocase (word s : pystr) : Prop :=
  exists pre mid post,
    s = pre ++ mid ++ post /\
    Forall2 same_letter word mid.

(** ** Timestamps and business days *)

Open Scope Z_scope.

(** A naive pandas [Timestamp]: nanoseconds since 1970-01-01 00:00. *)
Definition Timestamp := Z.

Definition ns_per_second : Z := 1000000000.
Definition ns_per_day : Z := 86400 * ns_per_second.

(** Days since 1970-01-01 of the calendar day a timestamp falls on. *)
Definition day_number (t : Timestamp) : Z := t / ns_per_day.

(** [Timestamp.weekday()]: Monday is 0 and Sunday is 6; 1970-01-01 was a
    Thursday. *)
Definition weekday (t : Timestamp) : Z := (day_number t + 3) mod 7.

(** [BusinessDay._adjust_ndays] for an offset of [n0] business days. *)
Definition adjust_ndays (n0 wday weeks : Z) : Z :=
  let n := if (n0 <=? 0) && (4 <? wday) then n0 + 1 else n0 in
  let n := n - 5 * weeks in
  if (n =? 0) && (4 <? wday) then 4 - wday
  else if 4 <? wday then (7 - wday) + (n - 1)
  else if wday + n <=? 4 then n
  else n + 2.

(** [BusinessDay(n)._apply(other)]: whole weeks first, then the days left,
    stepping over the weekend; the time of day is kept. *)
Definition BusinessDay_apply (n : Z) (other : Timestamp) : Timestamp :=
  let wday := weekday other in
  let weeks := n / 5 in
  let days := adjust_ndays n wday weeks in
  other + (7 * weeks + days) * ns_per_day.

(** [t - BusinessDay(n)] is [t + BusinessDay(-n)]. *)
Definition sub_BusinessDay (t : Timestamp) (n : Z) : Timestamp :=
  BusinessDay_apply (- n) t.

(** The day count of a date of the proleptic Gregorian calendar. *)
Definition days_from_civil (y m d : Z) : Z :=
  let y' := if m <=? 2 then y - 1 else y in
  let era := y' / 400 in
  let yoe := y' - era * 400 in
  let mp := (m + 9) mod 12 in
  let doy := (153 * mp + 2) / 5 + d - 1 in
  let doe := yoe * 365 + yoe / 4 - yoe / 100 + doy in
  era * 146097 + doe - 719468.

(** The date (year, month, day) of a day count. *)
Definition civil_from_days (z : Z) : Z * Z * Z :=
  let z := z + 719468 in
  let era := z / 146097 in
  let doe := z - era * 146097 in
  let yoe := (doe - doe / 1460 + doe / 36524 - doe / 146096) / 365 in
  let doy := doe - (365 * yoe + yoe / 4 - yoe / 100) in
  let mp := (5 * doy + 2) / 153 in
  let d := doy - (153 * mp + 2) / 5 + 1 in
  let m := if mp <? 10 then mp + 3 else mp - 9 in
  let y := yoe + era * 400 in
  (if m <=? 2 then y + 1 else y, m, d).

(** [pd.Timestamp(year, month, day)], at midnight. *)
Definition timestamp_of_date (y m d : Z) : Timestamp :=
  days_from_civil y m d * ns_per_day.

(** The last [width] decimal digits of [n], zero-padded. *)
Fixpoint zfill (width : nat) (n : Z) : pystr :=
  match width with
  | O => []
  | S w => zfill w (n / 10) ++ [(48 + Z.to_N (n mod 10))%N]
  end.

(** [t.strftime('%Y-%m-%d')]. *)
Definition strftime_Ymd (t : Timestamp) : pystr :=
  let '(y, m, d) := civil_from_days (day_number t) in
  zfill 4 y ++ u "-" ++ zfill 2 m ++ u "-" ++ zfill 2 d.

(** [str(t)]: the ISO form with a space, the fraction of a second shown
    with six or nine digits when it is not zero. *)
Definition timestamp_str (t : Timestamp) : pystr :=
  let secs := (t mod ns_per_day) / ns_per_second in
  let frac := t mod ns_per_second in
  strftime_Ymd t ++ u " " ++ zfill 2 (secs / 3600) ++ u ":"
  ++ zfill 2 ((secs / 60) mod 60) ++ u ":" ++ zfill 2 (secs mod 60)
  ++ (if frac =? 0 then []
      else if frac mod 1000 =? 0 then u "." ++ zfill 6 (frac / 1000)
      else u "." ++ zfill 9 frac).

(** The business day before the day of [t], at the same time of day. *)
Definition previous_business_day (t : Timestamp) : Timestamp :=
  let w := weekday t in
  if w =? 0 then t - 3 * ns_per_day
  else if w =? 6 then t - 2 * ns_per_day
  else t - ns_per_day.

(** ** Cells, exceptions and the outcome of a run *)

(** A cell of a table: a missing value ([NaN], or [NaT] in a datetime
    column), text, a timestamp, or any other scalar of the workbook, known
    here by the text [str()] gives for it. *)
Inductive Cell :=
| NaN
| NaT
| Str (s : pystr)
| Ts (t : Timestamp)
| Obj (repr : pystr).

(** [pd.notna]. *)
Definition notna (c : Cell) : bool :=
  match c with
  | NaN | NaT => false
  | _ => true
  end.

(** [str(c)], also what an f-string writes for [c]. *)
Definition py_str (c : Cell) : pystr :=
  match c with
  | NaN => u "nan"
  | NaT => u "NaT"
  | Str s => s
  | Ts t => timestamp_str t
  | Obj r => r
  end.

(** The exceptions of the script. [SecretNotFound] is what [st.secrets]
    raises when there is no secrets file: a [FileNotFoundError], in later
    versions of Streamlit its subclass [StreamlitSecretNotFoundError]. *)
Inductive Exn :=
| KeyError (key : string)
| IndexError
| TypeError
| AttributeError
| ExcelError
| ReError
| SecretNotFound.

(** What the page shows before [st.stop()]. *)
Inductive Notice :=
| NoApiKey
| ClientInitFailed
| NoFile
| LoadFailed (e : Exn)
| MissingColumns (missing : list string)
| NoPriorityLeads.

(** How a piece of the script ends: with a value, with an exception on its
    way up, or with the run halted by [st.stop()]. *)
Inductive Outcome (A : Type) :=
| Ret (a : A)
| Raise (e : Exn)
| Stop (n : Notice).
Arguments Ret {A} a.
Arguments Raise {A} e.
Arguments Stop {A} n.

Definition obind {A B} (o : Outcome A) (k : A -> Outcome B) : Outcome B :=
  match o with
  | Ret a => k a
  | Raise e => Raise e
  | Stop n => Stop n
  end.

Notation "'let*' x ':=' c 'in' k" := (obind c (fun x => k))
  (at level 10, x name, c at level 100, k at level 200, only parsing).

(** ** Data frames *)

(** Row labels and named columns, each column as long as the index. *)
Record DataFrame := {
  df_index : list nat;
  df_columns : list (string * list Cell)
}.

Fixpoint lookup {V} (k : string) (l : list (string * V)) : option V :=
  match l with
  | [] => None
  | (k', v) :: r => if String.eqb k' k then Some v else lookup k r
  end.

(** [d[k]] on a mapping with text keys. *)
Definition getkey {V} (l : list (string * V)) (k : string) : Outcome V :=
  match lookup k l with
  | Some v => Ret v
  | None => Raise (KeyError k)
  end.

(** [df[c]]. *)
Definition getitem (df : DataFrame) (c : string) : Outcome (list Cell) :=
  getkey (df_columns df) c.

Fixpoint assign {V} (k : string) (v : V) (l : list (string * V))
  : list (string * V) :=
  match l with
  | [] => [(k, v)]
  | (k', x) :: r =>
    if String.eqb k' k then (k', v) :: r else (k', x) :: assign k v r
  end.

(** [df[c] = col]: the column is replaced, or added after the others. *)
Definition setitem (df : DataFrame) (c : string) (col : list Cell)
  : DataFrame :=
  {| df_index := df_index df; df_columns := assign c col (df_columns df) |}.

(** The frame is rectangular: every column is as long as the index. *)
Definition rectangular (df : DataFrame) : Prop :=
  Forall (fun kc => length (snd kc) = length (df_index df)) (df_columns df).

(** [c in df.columns]. *)
Definition has_column (df : DataFrame) (c : string) : bool :=
  match lookup c (df_columns df) with
  | Some _ => true
  | None => false
  end.

(** The items of [l] at the positions where [mask] holds. *)
Fixpoint compress {A} (mask : list bool) (l : list A) : list A :=
  match mask, l with
  | b :: m, x :: r => if b then x :: compress m r else compress m r
  | _, _ => []
  end.

(** [df[mask]]: the rows where the mask holds, with their labels. *)
Definition take_rows (mask : list bool) (df : DataFrame) : DataFrame :=
  {| df_index := compress mask (df_index df);
     df_columns :=
       map (fun kc => (fst kc, compress mask (snd kc))) (df_columns df) |}.

(** [df.reset_index(drop=True)]: the rows are labelled 0, 1, 2, ... *)
Definition reset_index (df : DataFrame) : DataFrame :=
  {| df_index := seq 0 (length (df_index df));
     df_columns := df_columns df |}.

(** [df.empty]. *)
Definition df_empty (df : DataFrame) : bool :=
  match df_index df, df_columns df with
  | _ :: _, _ :: _ => false
  | _, _ => true
  end.

(** A row as [iterrows] hands it out: the cell of each column. *)
Definition Row := list (string * Cell).

Fixpoint rows_of (idx : list nat) (cols : list (string * list Cell))
  : list (nat * Row) :=
  match idx with
  | [] => []
  | i :: idx' =>
    (i, map (fun kc => (fst kc, hd NaN (snd kc))) cols)
    :: rows_of idx' (map (fun kc => (fst kc, tl (snd kc))) cols)
  end.

(** [df.iterrows()]. *)
Definition iterrows (df : DataFrame) : list (nat * Row) :=
  rows_of (df_index df) (df_columns df).

(** [Series.astype(str)] of an object column, for pandas before 3.0: every
    cell becomes the text [str()] gives, a missing one the text "nan". *)
Definition astype_str (col : list Cell) : list Cell :=
  map (fun c => Str (py_str c)) col.

(** Whether [read_excel] typed the column datetime64: every cell of the
    sheet is a date or is empty, an empty one being [NaT] there. *)
Definition is_datetime64 (col : list Cell) : bool :=
  forallb (fun c => match c with Ts _ | NaT => true | _ => false end) col.

(** The timestamps of a column. *)
Definition timestamps (col : list Cell) : list Timestamp :=
  flat_map (fun c => match c with Ts t => [t] | _ => [] end) col.

(** The text of one timestamp of a datetime64 column whose timestamps are
    [ts] ([format_array_from_datetime]): the date alone when every
    timestamp of the column is at midnight, otherwise the date and the
    time, with the fraction of the second written with nine, six or three
    digits, or not at all, as the finest timestamp of the column needs. *)
Definition datetime64_text (ts : list Timestamp) (t : Timestamp) : pystr :=
  if forallb (fun x => x mod ns_per_day =? 0) ts then strftime_Ymd t
  else
    let secs := (t mod ns_per_day) / ns_per_second in
    let frac := t mod ns_per_second in
    strftime_Ymd t ++ u " " ++ zfill 2 (secs / 3600) ++ u ":"
    ++ zfill 2 ((secs / 60) mod 60) ++ u ":" ++ zfill 2 (secs mod 60)
    ++ (if existsb (fun x => negb (x mod 1000 =? 0)) ts
        then u "." ++ zfill 9 frac
        else if existsb (fun x => negb (x mod 1000000 =? 0)) ts
        then u "." ++ zfill 6 (frac / 1000)
        else if existsb (fun x => negb (x mod ns_per_second =? 0)) ts
        then u "." ++ zfill 3 (frac / 1000000)
        else []).

(** [Series.astype(str)] of a datetime64 column, for pandas before 3.0:
    one format for the whole column, and "NaT" for a missing date. *)
Definition datetime64_astype_str (col : list Cell) : list Cell :=
  map (fun c => match c with
                | Ts t => Str (datetime64_text (timestamps col) t)
                | _ => Str (py_str c)
                end) col.

(** [Series.astype(str)] of a column that is datetime64 or not. *)
Definition series_astype_str (datetime64 : bool) (col : list Cell)
  : list Cell :=
  if datetime64 then datetime64_astype_str col else astype_str col.

(** [Series.fillna(v)]. *)
Definition fillna (v : pystr) (col : list Cell) : list Cell :=
  map (fun c => if notna c then c else Str v) col.

(** [Series.str.contains(pat, case=False, na=False)]. *)
Definition str_contains (pat : pystr) (col : list Cell)
  : Outcome (list bool) :=
  match re_parse pat with
  | Some alts =>
    Ret (map (fun c => match c with
                       | Str s => re_search alts s
                       | _ => false
                       end) col)
  | None => Raise ReError
  end.

(** [col <= thr] on a datetime column of naive timestamps, the kind [Ts]
    stands for; a missing date compares false.  A column with a time zone,
    which pandas refuses to compare with the naive [now] of line 95, is
    outside this model. *)
Definition le_timestamp (col : list Cell) (thr : Timestamp) : list bool :=
  map (fun c => match c with
                | Ts t => t <=? thr
                | _ => false
                end) col.

(** [a | b] on two masks. *)
Fixpoint mask_or (a b : list bool) : list bool :=
  match a, b with
  | x :: a', y :: b' => (x || y) :: mask_or a' b'
  | _, _ => []
  end.

(** [df.dropna(subset=[c])]. *)
Definition dropna (c : string) (df : DataFrame) : Outcome DataFrame :=
  let* col := getitem df c in
  Ret (take_rows (map notna col) df).

(** ** The script *)

(** Line feed, the ["\n"] of the script's literals. *)
Definition nl : pystr := [10%N].

(** The text of one lead, as lines 166 to 176 compute it. *)
Record LeadText := {
  nome : pystr;
  atendente : pystr;
  data : pystr;
  registro_str : pystr
}.

(** Line 166: the first word of the agent's name, "N/A" for a missing
    name. *)
Definition first_word (c : Cell) : Outcome pystr :=
  if notna c then
    match split (py_str c) with
    | w :: _ => Ret w
    | [] => Raise IndexError
    end
  else Ret (u "N/A").

(** Lines 174 and 199: the date of the contact, "N/A" for a missing one. *)
Definition date_text (c : Cell) : Outcome pystr :=
  if notna c then
    match c with
    | Ts t => Ret (strftime_Ymd t)
    | _ => Raise AttributeError
    end
  else Ret (u "N/A").

(** Lines 166 to 176, up to the call of the API. *)
Definition lead_text (row : Row) : Outcome LeadText :=
  let* a := getkey row "Atendente" in
  let* atend := first_word a in
  let* r := getkey row "Registro" in
  let reg := if notna r then py_str r else [] in
  let* n := getkey row "Nome do Atendido" in
  let* d := getkey row "Data do Atendimento" in
  let* dat := date_text d in
  Ret {| nome := py_str n; atendente := atend; data := dat;
         registro_str := reg |}.

(** A row as the loader leaves it: texts under the agent and the notes, a
    timestamp under the date. *)
Definition loaded_row (row : Row) : Prop :=
  exists a r n t,
    lookup "Atendente" row = Some (Str a) /\
    lookup "Registro" row = Some (Str r) /\
    lookup "Nome do Atendido" row = Some n /\
    lookup "Data do Atendimento" row = Some (Ts t).

(** Lines 170 to 176. *)
Definition user_content (l : LeadText) : pystr :=
  u "Dados do Lead Prioritário:" ++ nl
  ++ u "- Nome Lead: " ++ nome l ++ nl
  ++ u "  Atendente: " ++ atendente l ++ nl
  ++ u "  Data: " ++ data l ++ nl
  ++ u "  Registro Completo: " ++ registro_str l.

(** Lines 196 to 203: the section written when the call fails. *)
Definition fallback_section (l : LeadText) : pystr :=
  u "---" ++ nl
  ++ u "**Lead Prioritário:**" ++ nl
  ++ u "Nome: " ++ nome l ++ nl
  ++ u "Atendente: " ++ atendente l ++ nl
  ++ u "Data: " ++ data l ++ nl
  ++ u "Motivo da Prioridade: Erro ao processar" ++ nl
  ++ u "Sugestão de Abordagem (WhatsApp): Erro na geração" ++ nl
  ++ u "---".

(** Line 86. *)
Definition required_cols : list string :=
  ["Data do Atendimento"; "Nome do Atendido"; "Atendente"; "Registro"].

(** Line 87. *)
Definition missing_cols (df : DataFrame) : list string :=
  filter (fun c => negb (has_column df c)) required_cols.

(** Lines 86 to 90. *)
Definition check_columns (df : DataFrame) : Outcome DataFrame :=
  match missing_cols df with
  | [] => Ret df
  | m => Stop (MissingColumns m)
  end.

(** Lines 93 to 97, before [reset_index]: the rows kept, under the labels
    they had. *)
Definition select_priority (now : Timestamp) (df : DataFrame)
  : Outcome DataFrame :=
  let* reg := getitem df "Registro" in
  let* mask_kw := str_contains keywords reg in
  let two_bd_ago := sub_BusinessDay now 2 in
  let* dates := getitem df "Data do Atendimento" in
  let mask_date := le_timestamp dates two_bd_ago in
  Ret (take_rows (mask_or mask_kw mask_date) df).

(** Lines 93 to 97, for a clock that reads [now]. *)
Definition df_priority (now : Timestamp) (df : DataFrame)
  : Outcome DataFrame :=
  let* sel := select_priority now df in
  Ret (reset_index sel).

(** The keyword rule: the notes of the row hold one of the keywords,
    letter case apart. *)
Definition keyword_rule (row : Row) : Prop :=
  exists s w,
    lookup "Registro" row = Some (Str s) /\
    In w keyword_set /\ contains_nocase w s.

(** The staleness rule: the contact is no later than two business days
    before [now]. *)
Definition staleness_rule (now : Timestamp) (row : Row) : Prop :=
  exists t,
    lookup "Data do Atendimento" row = Some (Ts t) /\
    t <= previous_business_day (previous_business_day now).

(** The test lines 94 to 97 make on one row. *)
Definition row_mask (now : Timestamp) (row : Row) : bool :=
  match lookup "Registro" row with
  | Some (Str s) => re_search keyword_set s
  | _ => false
  end
  || match lookup "Data do Atendimento" row with
     | Some (Ts t) => t <=? sub_BusinessDay now 2
     | _ => false
     end.

(** The frame [pd.read_excel] gives for a sheet with the four columns of
    the script, in this order. *)
Definition sheet_of (dates names agents notes : list Cell) : DataFrame :=
  {| df_index := seq 0 (length dates);
     df_columns := [("Data do Atendimento", dates);
                    ("Nome do Atendido", names);
                    ("Atendente", agents);
                    ("Registro", notes)] |}.

(** A workbook of three contacts, the second with a date that is no date
    and without agent or notes, the third with a blank agent name. *)
Definition sample_sheet : DataFrame :=
  sheet_of [Ts (timestamp_of_date 2025 1 1); Str (u "amanhã");
            Ts (timestamp_of_date 2025 1 3)]
           [Str (u "Ana Souza"); Str (u "Bia Lima"); Str (u "Caio Reis")]
           [Str (u "Carla Dias"); NaN; Str (u " ")]
           [Str (u "Quer fechar a MATRICULA"); NaN; Str (u "ligar depois")].

(** A loaded table of two contacts. *)
Definition sample_table : DataFrame :=
  sheet_of [Ts (timestamp_of_date 2025 1 1); Ts (timestamp_of_date 2025 1 3)]
           [Str (u "Ana Souza"); Str (u "Caio Reis")]
           [Str (u "Carla Dias"); Str (u "Davi")]
           [Str (u "Quer fechar a MATRICULA"); Str (u "ligar depois")].

(** Monday 2025-01-06, 09:00. *)
Definition sample_now : Timestamp :=
  timestamp_of_date 2025 1 6 + 9 * 3600 * ns_per_second.

(** A value of the secrets file (TOML): text, a table, an array, or a
    scalar of another kind (a number, a boolean, a date). *)
#[warnings="-register-all"] Inductive Secret :=
| SText (s : pystr)
| STable (t : list (string * Secret))
| SArray (l : list Secret)
| SScalar.

(** The secrets store: the top-level table of the secrets file, [None] when
    no secrets file exists. *)
Definition Secrets := option (list (string * Secret)).

(** The environment of the process as line 35 finds it (Streamlit copies
    the top-level scalars of a secrets file into it when it reads the
    file). *)
Definition Environ := list (string * pystr).

(** What [pd.read_excel] made of the bytes the user gave, if any. *)
Inductive Workbook :=
| NoBytes
| Unreadable
| Sheet (df : DataFrame).

(** The answer of one call of the chat API, seen from inside the [try]:
    the content of the first choice (which may be [None]), or an
    exception. *)
Inductive ApiResult :=
| Content (c : option pystr)
| ApiError.

(** What the page shows as the run goes on. *)
Inductive Shown :=
| Progress (pos total : nat)
| ApiFailed (name : pystr).

(** The texts lines 166 to 176 build for the two contacts of
    [sample_table]. *)
Definition sample_leads : list LeadText :=
  [ {| nome := u "Ana Souza"; atendente := u "Carla";
       data := u "2025-01-01";
       registro_str := u "Quer fechar a MATRICULA" |};
    {| nome := u "Caio Reis"; atendente := u "Davi";
       data := u "2025-01-03";
       registro_str := u "ligar depois" |} ].

(** Three chat services for the examples, each counting its calls: one
    answers with the user message, one fails at its second call, one
    answers without content. *)
Definition echo_service (s : nat) (system user : pystr)
  : ApiResult * nat :=
  (Content (Some user), S s).

Definition flaky_service (s : nat) (system user : pystr)
  : ApiResult * nat :=
  (if Nat.eqb s 1 then ApiError else Content (Some user), S s).

Definition silent_service (s : nat) (system user : pystr)
  : ApiResult * nat :=
  (Content None, S s).

(** A sheet without the column of the names. *)
Definition nameless_sheet : DataFrame :=
  {| df_index := [0%nat];
     df_columns := [("Data do Atendimento", [Ts (timestamp_of_date 2025 1 1)]);
                    ("Atendente", [Str (u "Carla Dias")]);
                    ("Registro", [Str (u "urgente")])] |}.


Section Script.

(** What the script takes from its libraries and from line 107: the parser
    behind [pd.to_datetime] (given the whole column, as the format is
    guessed from it, and one cell that is neither missing nor a date
    already), the state of the chat service with its constructor
    [openai.OpenAI] (given the key as the script found it) and its call
    [client.chat.completions.create], and the text of the system
    message. *)
Variable parse_datetime : list Cell -> Cell -> option Timestamp.
Variable ApiState : Type.
Variable OpenAI : Secret -> option ApiState.
Variable create : ApiState -> pystr -> pystr -> ApiResult * ApiState.
Variable agent_prompt : pystr.

(** Whether a slice can be hashed, as it can from Python 3.12 on: a table
    of the secrets sliced as line 32 does then raises [KeyError], where
    earlier versions raise [TypeError]. *)
Variable slices_hashable : bool.

(** Lines 30 to 32, inside the [try]: the two lookups, then the first five
    characters of the key for the page.  Only a table can be looked up by
    name, and a scalar that is no text cannot be sliced. *)
Definition secrets_api_key (secrets : Secrets) : Outcome Secret :=
  match secrets with
  | None => Raise SecretNotFound
  | Some top =>
    let* openai := getkey top "openai" in
    match openai with
    | STable table =>
      let* api_key := getkey table "api_key" in
      match api_key with
      | SText _ | SArray _ => Ret api_key
      | STable _ =>
        Raise (if slices_hashable then KeyError "slice(None, 5, None)"
               else TypeError)
      | SScalar => Raise TypeError
      end
    | _ => Raise TypeError
    end
  end.

(** Lines 27 to 44: only a [KeyError] sends the script to the environment
    variable, where an empty value counts as none. *)
Definition resolve_api_key (secrets : Secrets) (environ : Environ)
  : Outcome Secret :=
  match secrets_api_key secrets with
  | Raise (KeyError _) =>
    match lookup "OPENAI_API_KEY" environ with
    | Some (c :: k) => Ret (SText (c :: k))
    | _ => Stop NoApiKey
    end
  | r => r
  end.

(** [pd.to_datetime(col, errors='coerce')]. *)
Definition to_datetime (col : list Cell) : list Cell :=
  map (fun c => match c with
                | Ts t => Ts t
                | NaN | NaT => NaT
                | _ => match parse_datetime col c with
                       | Some t => Ts t
                       | None => NaT
                       end
                end) col.

(** The dtype of a column of the sheet as [read_excel] gave it: datetime64
    or not.  Dropping rows does not change it. *)
Definition dtype_datetime64 (sheet : DataFrame) (c : string) : bool :=
  match lookup c (df_columns sheet) with
  | Some col => is_datetime64 col
  | None => false
  end.

(** Lines 78 to 81, on the frame [sheet] that [read_excel] gave. *)
Definition clean (sheet : DataFrame) : Outcome DataFrame :=
  let* dates := getitem sheet "Data do Atendimento" in
  let df := setitem sheet "Data do Atendimento" (to_datetime dates) in
  let* df := dropna "Data do Atendimento" df in
  let* reg := getitem df "Registro" in
  let df :=
    setitem df "Registro"
      (fillna (u "")
         (series_astype_str (dtype_datetime64 sheet "Registro") reg)) in
  let* atend := getitem df "Atendente" in
  Ret (setitem df "Atendente"
         (fillna (u "Não Informado")
            (series_astype_str (dtype_datetime64 sheet "Atendente") atend))).

(** Lines 71 to 84: the [try] around the reading, any exception turned
    into a halt. *)
Definition read_and_clean (book : Workbook) : Outcome DataFrame :=
  match book with
  | NoBytes => Stop NoFile
  | Unreadable => Stop (LoadFailed ExcelError)
  | Sheet df =>
    match clean df with
    | Raise e => Stop (LoadFailed e)
    | r => r
    end
  end.

(** Lines 71 to 90. *)
Definition load (book : Workbook) : Outcome DataFrame :=
  let* df := read_and_clean book in
  check_columns df.

(** The world the run acts on: the system clock, the chat service and the
    page. *)
Record World := {
  clock : Timestamp;
  api : ApiState;
  screen : list Shown
}.

Definition M (A : Type) := World -> Outcome A * World.

Definition mret {A} (a : A) : M A := fun w => (Ret a, w).

Definition mbind {A B} (m : M A) (k : A -> M B) : M B :=
  fun w =>
    match m w with
    | (Ret a, w') => k a w'
    | (Raise e, w') => (Raise e, w')
    | (Stop n, w') => (Stop n, w')
    end.

Definition lift {A} (o : Outcome A) : M A := fun w => (o, w).

Notation "x <- c ;; k" := (mbind c (fun x => k))
  (at level 61, c at next level, right associativity).

(** [st.info], [st.error]. *)
Definition show (s : Shown) : M unit :=
  fun w => (Ret tt, {| clock := clock w; api := api w;
                       screen := screen w ++ [s] |}).

(** [pd.Timestamp.now()]. *)
Definition Timestamp_now : M Timestamp := fun w => (Ret (clock w), w).

(** Lines 178 to 190, inside the [try]. *)
Definition chat (user : pystr) : M ApiResult :=
  fun w =>
    let (r, s) := create (api w) agent_prompt user in
    (Ret r, {| clock := clock w; api := s; screen := screen w |}).

(** Lines 93 to 102. *)
Definition priority_stage (df : DataFrame) : M DataFrame :=
  now <- Timestamp_now ;;
  p <- lift (df_priority now df) ;;
  if df_empty p then lift (Stop NoPriorityLeads) else mret p.

(** One turn of the loop of [gerar_relatorio]: the item appended to
    [relatorio_completo]. *)
Definition report_lead (total : nat) (ir : nat * Row) : M (option pystr) :=
  _ <- show (Progress (fst ir + 1) total) ;;
  l <- lift (lead_text (snd ir)) ;;
  r <- chat (user_content l) ;;
  match r with
  | Content c => mret c
  | ApiError =>
    _ <- show (ApiFailed (nome l)) ;;
    mret (Some (fallback_section l))
  end.

(** The loop of lines 163 to 203: [relatorio_completo] at its end. *)
Fixpoint relatorio_completo (total : nat) (rows : list (nat * Row))
  : M (list (option pystr)) :=
  match rows with
  | [] => mret []
  | ir :: rest =>
    s <- report_lead total ir ;;
    ss <- relatorio_completo total rest ;;
    mret (s :: ss)
  end.

(** [sections_of df]: the list the loop builds for [df]. *)
Definition sections_of (df_leads : DataFrame) : M (list (option pystr)) :=
  relatorio_completo (length (df_index df_leads)) (iterrows df_leads).

(** Line 208: [str.join] refuses an item that is not text. *)
Fixpoint all_text (l : list (option pystr)) : Outcome (list pystr) :=
  match l with
  | [] => Ret []
  | Some s :: r => let* ss := all_text r in Ret (s :: ss)
  | None :: _ => Raise TypeError
  end.

(** Lines 158 to 208. *)
Definition gerar_relatorio (df_leads : DataFrame) : M pystr :=
  secs <- sections_of df_leads ;;
  texts <- lift (all_text secs) ;;
  mret (join texts).

(** The item of [relatorio_completo] for one lead, given the answer of the
    call made for it. *)
Definition section_of (r : ApiResult) (l : LeadText) : option pystr :=
  match r with
  | Content c => c
  | ApiError => Some (fallback_section l)
  end.

(** The answers of the calls made, one after the other, for the leads in
    turn, from the state [s] of the service. *)
Fixpoint api_trace (s : ApiState) (leads : list LeadText) : list ApiResult :=
  match leads with
  | [] => []
  | l :: rest =>
    fst (create s agent_prompt (user_content l))
    :: api_trace (snd (create s agent_prompt (user_content l))) rest
  end.

(** The state of the service after those calls. *)
Fixpoint api_after (s : ApiState) (leads : list LeadText) : ApiState :=
  match leads with
  | [] => s
  | l :: rest => api_after (snd (create s agent_prompt (user_content l))) rest
  end.

(** The items of [relatorio_completo] that go with those answers. *)
Definition sections_for (s : ApiState) (leads : list LeadText)
  : list (option pystr) :=
  map (fun rl => section_of (fst rl) (snd rl))
      (combine (api_trace s leads) leads).

(** What the run is given. *)
Record Inputs := {
  secrets : Secrets;
  environ : Environ;
  workbook : Workbook;
  button : bool
}.

(** Lines 52 to 218, once the client exists. *)
Definition pipeline (inp : Inputs) : M (option pystr) :=
  df <- lift (load (workbook inp)) ;;
  p <- priority_stage df ;;
  if button inp then
    r <- gerar_relatorio p ;;
    mret (Some r)
  else mret None.

(** The whole script, for a clock that reads [now]: how it ends and what
    the page has shown. *)
Definition app (inp : Inputs) (now : Timestamp)
  : Outcome (option pystr) * list Shown :=
  match resolve_api_key (secrets inp) (environ inp) with
  | Ret key =>
    match OpenAI key with
    | Some s =>
      let (r, w) := pipeline inp {| clock := now; api := s; screen := [] |} in
      (r, screen w)
    | None => (Stop ClientInitFailed, [])
    end
  | Raise e => (Raise e, [])
  | Stop n => (Stop n, [])
  end.

(** * Properties *)

Unset Implicit Arguments.
Set Default Proof Using "Type".

(** ** Lists, masks and rows *)

Lemma compress_map_filter {A} (f : A -> bool) (l : list A) :
  compress (map f l) l = filter f l.
Proof.
  induction l as [|x l IH]; simpl; [reflexivity|].
  destruct (f x); rewrite IH; reflexivity.
Qed.

Lemma mask_or_map {A} (f g : A -> bool) (l : list A) :
  mask_or (map f l) (map g l) = map (fun x => f x || g x) l.
Proof.
  induction l as [|x l IH]; simpl; [reflexivity|]. now rewrite IH.
Qed.

Lemma lookup_map_snd {V W} (f : V -> W) (k : string) (l : list (string * V)) :
  lookup k (map (fun kc => (fst kc, f (snd kc))) l) = option_map f (lookup k l).
Proof.
  induction l as [|[k' v] l IH]; simpl; [reflexivity|].
  destruct (String.eqb k' k); [reflexivity|exact IH].
Qed.

Lemma lookup_assign_same {V} (k : string) (v : V) (l : list (string * V)) :
  lookup k (assign k v l) = Some v.
Proof.
  induction l as [|[k' x] l IH]; simpl.
  - now rewrite String.eqb_refl.
  - destruct (String.eqb k' k) eqn:E; simpl; rewrite E; [reflexivity|exact IH].
Qed.

Lemma lookup_assign_other {V} (k k' : string) (v : V) (l : list (string * V)) :
  k <> k' -> lookup k' (assign k v l) = lookup k' l.
Proof.
  intros Hne. induction l as [|[k0 x] l IH]; simpl.
  - destruct (String.eqb k k') eqn:E; [|reflexivity].
    apply String.eqb_eq in E. contradiction.
  - destruct (String.eqb k0 k) eqn:E; simpl.
    + destruct (String.eqb k0 k') eqn:E'; [|reflexivity].
      apply String.eqb_eq in E, E'. congruence.
    + destruct (String.eqb k0 k'); [reflexivity|exact IH].
Qed.

Lemma Forall_tl_length (n : nat) (cols : list (string * list Cell)) :
  Forall (fun kc => length (snd kc) = S n) cols ->
  Forall (fun kc => length (snd kc) = n)
         (map (fun kc => (fst kc, tl (snd kc))) cols).
Proof.
  intros H. apply Forall_map. eapply Forall_impl; [|exact H].
  intros [k [|x r]] Hl; simpl in *; [discriminate|]. now injection Hl.
Qed.

Lemma rows_of_compress (idx : list nat) :
  forall (mask : list bool) (cols : list (string * list Cell)),
    Forall (fun kc => length (snd kc) = length idx) cols ->
    rows_of (compress mask idx)
            (map (fun kc => (fst kc, compress mask (snd kc))) cols)
    = compress mask (rows_of idx cols).
Proof.
  induction idx as [|i idx IH]; intros mask cols Hc.
  - destruct mask; reflexivity.
  - destruct mask as [|b m]; [reflexivity|].
    assert (Htl : map (fun kc => (fst kc, compress m (snd kc)))
                      (map (fun kc => (fst kc, tl (snd kc))) cols)
                  = map (fun kc => (fst kc, tl (compress (true :: m) (snd kc))))
                        cols).
    { rewrite map_map. apply map_ext_Forall. eapply Forall_impl; [|exact Hc].
      intros [k [|x r]] Hl; simpl in *; [discriminate|reflexivity]. }
    destruct b; simpl.
    + f_equal.
      * f_equal. rewrite map_map. apply map_ext_Forall.
        eapply Forall_impl; [|exact Hc].
        intros [k [|x r]] Hl; simpl in *; [discriminate|reflexivity].
      * rewrite <- IH by (apply Forall_tl_length; exact Hc).
        f_equal. rewrite map_map. rewrite Htl. reflexivity.
    + rewrite <- IH by (apply Forall_tl_length; exact Hc).
      f_equal. rewrite Htl. apply map_ext_Forall.
      eapply Forall_impl; [|exact Hc].
      intros [k [|x r]] Hl; simpl in *; [discriminate|reflexivity].
Qed.

Lemma iterrows_take_rows (mask : list bool) (df : DataFrame) :
  rectangular df ->
  iterrows (take_rows mask df) = compress mask (iterrows df).
Proof. intros H. apply rows_of_compress. exact H. Qed.

(** The cells of a column, read off the rows. *)
Lemma column_of_rows (c : string) (idx : list nat) :
  forall (cols : list (string * list Cell)) (col : list Cell),
    lookup c cols = Some col ->
    length col = length idx ->
    map (fun ir => lookup c (snd ir)) (rows_of idx cols) = map Some col.
Proof.
  induction idx as [|i idx IH]; intros cols col Hl Hlen.
  - destruct col; [reflexivity|discriminate].
  - destruct col as [|x col]; [discriminate|]. simpl. f_equal.
    + rewrite (lookup_map_snd (hd NaN)), Hl. reflexivity.
    + apply IH; [|now injection Hlen].
      rewrite (lookup_map_snd (@tl Cell)), Hl. reflexivity.
Qed.

Lemma map_option_cell {A} (f : Cell -> A) (d : A) (c : string)
      (idx : list nat) (cols : list (string * list Cell)) (col : list Cell) :
  lookup c cols = Some col ->
  length col = length idx ->
  map f col
  = map (fun ir => match lookup c (snd ir) with Some x => f x | None => d end)
        (rows_of idx cols).
Proof.
  intros Hl Hlen.
  pose proof (column_of_rows c idx cols col Hl Hlen) as H.
  apply (f_equal (map (fun o => match o with Some x => f x | None => d end)))
    in H.
  rewrite !map_map in H. symmetry. exact H.
Qed.

(** ** The search of the keywords *)

Lemma match_here_spec (lit s : pystr) :
  match_here lit s = true <->
  exists mid post,
    s = mid ++ post /\
    Forall2 (fun p c => literal_ignorecase p c = true) lit mid.
Proof.
  revert s. induction lit as [|p lit IH]; intros s; simpl.
  - split; [|reflexivity]. intros _. exists [], s. split; [reflexivity|constructor].
  - destruct s as [|c s].
    + split; [discriminate|]. intros (mid & post & Hs & HF).
      inversion HF; subst. discriminate.
    + rewrite andb_true_iff, IH. split.
      * intros (Hc & mid & post & Hs & HF). exists (c :: mid), post.
        split; [simpl; now rewrite Hs|now constructor].
      * intros (mid & post & Hs & HF). inversion HF as [|? c' ? mid' Hc HF']; subst.
        simpl in Hs. injection Hs as -> ->. split; [exact Hc|].
        exists mid', post. split; [reflexivity|exact HF'].
Qed.

Lemma re_search_spec (alts : list pystr) (s : pystr) :
  re_search alts s = true <->
  exists w, In w alts /\ occurs literal_ignorecase w s.
Proof.
  induction s as [|c s IH].
  - simpl. rewrite orb_false_r, existsb_exists. split.
    + intros (w & Hin & Hm). exists w. split; [exact Hin|].
      apply match_here_spec in Hm. destruct Hm as (mid & post & Hs & HF).
      exists [], mid, post. split; [exact Hs|exact HF].
    + intros (w & Hin & pre & mid & post & Hs & HF). exists w. split; [exact Hin|].
      apply match_here_spec. destruct pre; [|discriminate].
      exists mid, post. split; [exact Hs|exact HF].
  - simpl. rewrite orb_true_iff, existsb_exists, IH. split.
    + intros [(w & Hin & Hm) | (w & Hin & pre & mid & post & Hs & HF)].
      * exists w. split; [exact Hin|].
        apply match_here_spec in Hm. destruct Hm as (mid & post & Hs & HF).
        exists [], mid, post. split; [exact Hs|exact HF].
      * exists w. split; [exact Hin|].
        exists (c :: pre), mid, post. split; [simpl; now rewrite Hs|exact HF].
    + intros (w & Hin & pre & mid & post & Hs & HF).
      destruct pre as [|c' pre].
      * left. exists w. split; [exact Hin|]. apply match_here_spec.
        exists mid, post. split; [exact Hs|exact HF].
      * right. exists w. split; [exact Hin|]. simpl in Hs. injection Hs as _ Hs.
        exists pre, mid, post. split; [exact Hs|exact HF].
Qed.

Lemma keywords_parse : re_parse keywords = Some keyword_set.
Proof. reflexivity. Qed.

(** *** The test of the engine against letter case *)

Lemma same_letterb_spec (a b : N) :
  same_letterb a b = true <-> same_letter a b.
Proof.
  unfold same_letterb, same_letter.
  now rewrite orb_true_iff, !N.eqb_eq.
Qed.

(** A character outside [latin_chars] is its own upper-case and lower-case
    form, for the script and for the engine. *)
Lemma case_forms_outside (c : N) :
  ~ In c latin_chars ->
  sre_lower c = c /\ upper_case c = c /\ lower_case c = c.
Proof.
  intros Hn.
  assert (Hc : (255 < c)%N).
  { destruct (N.le_gt_cases c 255) as [Hc|Hc]; [|exact Hc].
    exfalso. apply Hn, in_or_app. left.
    apply in_map_iff. exists (N.to_nat c). split; [apply N2Nat.id|].
    apply in_seq. lia. }
  assert (Hle : forall k, (k <= 255)%N -> (c <=? k)%N = false)
    by (intros k Hk; apply N.leb_gt; lia).
  assert (Heq : forall k, (k <= 255)%N -> (c =? k)%N = false)
    by (intros k Hk; apply N.eqb_neq; lia).
  assert (Hsp : forall k,
             In k [304; 305; 376; 383; 924; 956; 7838; 8490; 8491]%N ->
             (c =? k)%N = false).
  { intros k Hk. apply N.eqb_neq. intros ->. apply Hn, in_or_app.
    now right. }
  unfold sre_lower, upper_case, lower_case.
  repeat match goal with
         | |- context [(c <=? ?k)%N] => rewrite (Hle k) by lia
         | |- context [(c =? ?k)%N] =>
           first [ rewrite (Heq k) by lia
                 | rewrite (Hsp k)
                     by (simpl; repeat (first [left; reflexivity | right])) ]
         end.
  rewrite !andb_false_r. cbn [andb orb]. auto.
Qed.

(** On the characters of [latin_chars], by running both tests against
    every letter of the keywords. *)
Lemma letter_test_inside :
  forallb
    (fun p =>
       forallb
         (fun c => Bool.eqb (literal_ignorecase p c) (same_letterb p c))
         latin_chars)
    (List.concat keyword_set)
  = true.
Proof. vm_compute. reflexivity. Qed.

(** The case forms of the letters of the keywords are among them, and so
    are those of every character that is one of these letters, letter case
    apart; on them [same_letter] goes from a letter of the keywords through
    a second character to a third. *)
Lemma letter_forms_inside :
  forallb
    (fun p =>
       forallb
         (fun x => existsb (N.eqb x) latin_chars)
         (sre_lower p :: upper_case p :: lower_case p
          :: ignorecase_fixes (sre_lower p))
       && forallb
            (fun c =>
               if same_letterb p c
               then existsb (N.eqb (upper_case c)) latin_chars
                    && existsb (N.eqb (lower_case c)) latin_chars
                    && forallb
                         (fun c' =>
                            if same_letterb c c' then same_letterb p c'
                            else true)
                         latin_chars
               else true)
            latin_chars)
    (List.concat keyword_set)
  = true.
Proof. vm_compute. reflexivity. Qed.

Lemma in_latin_chars (x : N) :
  existsb (N.eqb x) latin_chars = true -> In x latin_chars.
Proof.
  intros H. apply existsb_exists in H. destruct H as (y & Hy & E).
  apply N.eqb_eq in E. now subst y.
Qed.

(** On the letters of the keywords the test of the engine is letter case
    apart, no more and no less. *)
Lemma literal_same_letter (p c : N) :
  In p (List.concat keyword_set) ->
  (literal_ignorecase p c = true <-> same_letter p c).
Proof.
  intros Hp. rewrite <- same_letterb_spec.
  destruct (in_dec N.eq_dec c latin_chars) as [Hin|Hout].
  { pose proof letter_test_inside as H.
    rewrite forallb_forall in H. specialize (H p Hp).
    rewrite forallb_forall in H.
    apply H, eqb_prop in Hin. now rewrite Hin. }
  pose proof letter_forms_inside as H.
  rewrite forallb_forall in H. specialize (H p Hp).
  apply andb_true_iff in H. destruct H as [H _].
  rewrite forallb_forall in H.
  assert (Hform : forall x,
             In x (sre_lower p :: upper_case p :: lower_case p
                   :: ignorecase_fixes (sre_lower p)) -> c <> x).
  { intros x Hx <-. apply Hout, in_latin_chars, H, Hx. }
  destruct (case_forms_outside c Hout) as (E1 & E2 & E3).
  unfold literal_ignorecase, same_letterb. rewrite E1, E2, E3. split.
  - rewrite orb_true_iff, existsb_exists.
    intros [E|(x & Hx & E)]; apply N.eqb_eq in E; exfalso.
    + apply (Hform (sre_lower p)); [now left|exact E].
    + subst x. apply (Hform c); [now do 3 right|reflexivity].
  - rewrite orb_true_iff, !N.eqb_eq. intros [E|E]; exfalso.
    + apply (Hform (upper_case p)); [right; now left|now symmetry].
    + apply (Hform (lower_case p)); [do 2 right; now left|now symmetry].
Qed.

(** From a letter of the keywords, [same_letter] carries over to the
    characters that are the same letter as the second. *)
Lemma same_letter_carries (p c c' : N) :
  In p (List.concat keyword_set) ->
  same_letter p c -> same_letter c c' -> same_letter p c'.
Proof.
  intros Hp Hpc Hcc.
  pose proof letter_forms_inside as H.
  rewrite forallb_forall in H. specialize (H p Hp).
  apply andb_true_iff in H. destruct H as [Hforms Hchain].
  rewrite forallb_forall in Hforms, Hchain.
  assert (Hc : In c latin_chars).
  { destruct (in_dec N.eq_dec c latin_chars) as [Hin|Hout]; [exact Hin|].
    exfalso. destruct (case_forms_outside c Hout) as (_ & E2 & E3).
    unfold same_letter in Hpc. rewrite E2, E3 in Hpc.
    destruct Hpc as [E|E]; apply Hout; rewrite <- E;
      apply in_latin_chars, Hforms; simpl; auto. }
  specialize (Hchain c Hc).
  rewrite (proj2 (same_letterb_spec p c) Hpc) in Hchain.
  rewrite !andb_true_iff, forallb_forall in Hchain.
  destruct Hchain as [[Hup Hlow] Hchain].
  assert (Hc' : In c' latin_chars).
  { destruct (in_dec N.eq_dec c' latin_chars) as [Hin|Hout]; [exact Hin|].
    exfalso. destruct (case_forms_outside c' Hout) as (_ & E2 & E3).
    unfold same_letter in Hcc. rewrite E2, E3 in Hcc.
    destruct Hcc as [E|E]; apply Hout; rewrite <- E;
      now apply in_latin_chars. }
  specialize (Hchain c' Hc').
  rewrite (proj2 (same_letterb_spec c c') Hcc) in Hchain.
  now apply same_letterb_spec.
Qed.

Lemma word_same_letter (w mid : pystr) :
  (forall p, In p w -> In p (List.concat keyword_set)) ->
  (Forall2 (fun p c => literal_ignorecase p c = true) w mid <->
   Forall2 same_letter w mid).
Proof.
  revert mid. induction w as [|p w IH]; intros mid Hw.
  - split; intros H; inversion H; constructor.
  - assert (Hp : In p (List.concat keyword_set)) by (apply Hw; now left).
    assert (Hw' : forall q, In q w -> In q (List.concat keyword_set))
      by (intros q Hq; apply Hw; now right).
    split; intros H; inversion H as [|? c ? mid' Hc HF]; subst;
      constructor; try (now apply (IH mid' Hw')).
    + now apply literal_same_letter.
    + now apply literal_same_letter.
Qed.

(** The search of line 94, against the specification: the mask holds at a
    text exactly when the text holds one of the nine keywords, letter case
    apart. *)
Lemma keyword_search_spec (s : pystr) :
  re_search keyword_set s = true <->
  exists w, In w keyword_set /\ contains_nocase w s.
Proof.
  rewrite re_search_spec. unfold occurs, contains_nocase.
  split; intros (w & Hin & pre & mid & post & Hs & HF);
    exists w; (split; [exact Hin|]); exists pre, mid, post;
      (split; [exact Hs|]);
      apply (word_same_letter w mid); try exact HF;
        intros p Hp; apply in_concat; exists w; auto.
Qed.

(** ** Business days *)

Lemma weekday_range (t : Timestamp) : 0 <= weekday t < 7.
Proof. unfold weekday. apply Z.mod_pos_bound. lia. Qed.

Lemma day_number_shift (t k : Z) :
  day_number (t + k * ns_per_day) = day_number t + k.
Proof.
  unfold day_number. apply Z.div_add. unfold ns_per_day, ns_per_second. lia.
Qed.

Lemma weekday_shift (t k : Z) :
  weekday (t + k * ns_per_day) = (weekday t + k) mod 7.
Proof.
  unfold weekday. rewrite day_number_shift.
  rewrite Zplus_mod_idemp_l. f_equal. lia.
Qed.

(** Two business days back, the way pandas computes it, is twice the
    business day before. *)
Lemma sub_BusinessDay_two (t : Timestamp) :
  sub_BusinessDay t 2 = previous_business_day (previous_business_day t).
Proof.
  pose proof (weekday_range t) as Hr.
  assert (Hs : forall k, weekday (t - k * ns_per_day) = (weekday t - k) mod 7).
  { intros k. replace (t - k * ns_per_day) with (t + (- k) * ns_per_day) by lia.
    rewrite weekday_shift. f_equal. }
  assert (Hs1 : weekday (t - ns_per_day) = (weekday t - 1) mod 7).
  { replace (t - ns_per_day) with (t - 1 * ns_per_day) by lia. apply Hs. }
  unfold sub_BusinessDay, BusinessDay_apply, previous_business_day.
  change ((- (2)) / 5) with (-1).
  assert (Hcases : weekday t = 0 \/ weekday t = 1 \/ weekday t = 2 \/
                   weekday t = 3 \/ weekday t = 4 \/ weekday t = 5 \/
                   weekday t = 6) by lia.
  remember ns_per_day as D eqn:HD.
  destruct Hcases as [H|[H|[H|[H|[H|[H|H]]]]]];
    rewrite H; cbn [Z.eqb Pos.eqb];
    rewrite ?Hs1, ?(Hs 2), ?(Hs 3), ?H;
    repeat match goal with
      | |- context [adjust_ndays ?a ?b ?c] =>
        let v := eval vm_compute in (adjust_ndays a b c) in
        change (adjust_ndays a b c) with v
      | |- context [(?x mod 7 =? ?y)] =>
        let v := eval vm_compute in (x mod 7 =? y) in
        change (x mod 7 =? y) with v
      end;
    cbv beta iota; lia.
Qed.

(** ** The priority filter *)

Lemma rectangular_column (df : DataFrame) (c : string) (col : list Cell) :
  rectangular df ->
  lookup c (df_columns df) = Some col ->
  length col = length (df_index df).
Proof.
  unfold rectangular. generalize (length (df_index df)) as n.
  induction (df_columns df) as [|[k v] l IH]; intros n HF Hl; [discriminate|].
  simpl in Hl. apply Forall_cons_iff in HF. destruct HF as [Hv HF'].
  destruct (String.eqb k c); [injection Hl as <-; exact Hv|now apply IH].
Qed.

Lemma rows_of_fst (idx : list nat) :
  forall cols, map fst (rows_of idx cols) = idx.
Proof.
  induction idx as [|i idx IH]; intros cols; simpl; [reflexivity|].
  now rewrite IH.
Qed.

Lemma rows_of_snd (idx : list nat) :
  forall idx' cols,
    length idx = length idx' ->
    map snd (rows_of idx cols) = map snd (rows_of idx' cols).
Proof.
  induction idx as [|i idx IH]; intros [|i' idx'] cols Hl;
    try discriminate; simpl; [reflexivity|].
  f_equal. apply IH. now injection Hl.
Qed.

Lemma rows_of_length (idx : list nat) :
  forall cols, length (rows_of idx cols) = length idx.
Proof.
  intros cols. rewrite <- (rows_of_fst idx cols) at 2. now rewrite length_map.
Qed.

Lemma row_mask_spec (now : Timestamp) (row : Row) :
  row_mask now row = true <-> keyword_rule row \/ staleness_rule now row.
Proof.
  unfold row_mask, keyword_rule, staleness_rule.
  rewrite orb_true_iff, sub_BusinessDay_two. split.
  - intros [H|H].
    + left. destruct (lookup "Registro" row) as [[| |s| |]|]; try discriminate.
      apply keyword_search_spec in H. destruct H as (w & Hin & Hc).
      exists s, w. auto.
    + right. destruct (lookup "Data do Atendimento" row) as [[| | |t|]|];
        try discriminate.
      exists t. split; [reflexivity|now apply Z.leb_le].
  - intros [(s & w & -> & Hin & Hc)|(t & -> & Hle)].
    + left. apply keyword_search_spec. exists w. auto.
    + right. now apply Z.leb_le.
Qed.

(** Lines 93 to 97 as one mask over the rows. *)
Lemma select_priority_eq (now : Timestamp) (df : DataFrame)
      (reg dates : list Cell) :
  lookup "Registro" (df_columns df) = Some reg ->
  lookup "Data do Atendimento" (df_columns df) = Some dates ->
  select_priority now df
  = Ret (take_rows
           (mask_or (map (fun c => match c with
                                   | Str s => re_search keyword_set s
                                   | _ => false
                                   end) reg)
                    (le_timestamp dates (sub_BusinessDay now 2)))
           df).
Proof.
  intros Hreg Hdat.
  unfold select_priority, getitem, getkey, str_contains.
  rewrite Hreg, keywords_parse. unfold obind at 1 2. rewrite Hdat. reflexivity.
Qed.

(** What lines 93 to 97 keep, read row by row. *)
Lemma select_priority_rows (now : Timestamp) (df : DataFrame)
      (reg dates : list Cell) :
  rectangular df ->
  lookup "Registro" (df_columns df) = Some reg ->
  lookup "Data do Atendimento" (df_columns df) = Some dates ->
  exists sel,
    select_priority now df = Ret sel /\
    iterrows sel = filter (fun ir => row_mask now (snd ir)) (iterrows df).
Proof.
  intros Hrect Hreg Hdat.
  rewrite (select_priority_eq now df reg dates Hreg Hdat).
  eexists. split; [reflexivity|].
  rewrite iterrows_take_rows by exact Hrect.
  rewrite (map_option_cell _ false "Registro" (df_index df) (df_columns df)
             reg Hreg)
    by (eapply rectangular_column; eassumption).
  unfold le_timestamp.
  rewrite (map_option_cell _ false "Data do Atendimento" (df_index df)
             (df_columns df) dates Hdat)
    by (eapply rectangular_column; eassumption).
  rewrite mask_or_map. fold (iterrows df). rewrite compress_map_filter.
  apply filter_ext. intros [lab row]. unfold row_mask. simpl.
  destruct (lookup "Registro" row) as [[]|];
    destruct (lookup "Data do Atendimento" row) as [[]|]; reflexivity.
Qed.

Lemma count_occ_kept {A} (f : nat * A -> bool) (rows : list (nat * A)) :
  NoDup (map fst rows) ->
  forall ir, In ir rows ->
    count_occ Nat.eq_dec (map fst (filter f rows)) (fst ir)
    = if f ir then 1%nat else 0%nat.
Proof.
  induction rows as [|r rows IH]; intros Hnd ir Hin; [contradiction|].
  simpl in Hnd. inversion Hnd as [|? ? Hnot Hnd']; subst.
  assert (Hnone : forall g, count_occ Nat.eq_dec (map fst (filter g rows)) (fst r)
                            = 0%nat).
  { intros g. apply count_occ_not_In. intros Hc. apply Hnot.
    apply in_map_iff in Hc. destruct Hc as (x & Hx & Hf).
    apply filter_In in Hf. destruct Hf as [Hf _].
    apply in_map_iff. exists x. split; assumption. }
  destruct Hin as [<-|Hin].
  - simpl. destruct (f r); simpl.
    + destruct (Nat.eq_dec (fst r) (fst r)); [|contradiction].
      now rewrite Hnone.
    + apply Hnone.
  - assert (Hne : fst r <> fst ir).
    { intros E. apply Hnot. rewrite E. now apply in_map. }
    simpl. destruct (f r); simpl.
    + destruct (Nat.eq_dec (fst r) (fst ir)); [contradiction|]. now apply IH.
    + now apply IH.
Qed.

Lemma filter_positions {A} (f : A -> bool) (l : list A) :
  exists ps : list nat,
    StronglySorted lt ps /\
    map Some (filter f l) = map (nth_error l) ps.
Proof.
  induction l as [|x l (ps & Hs & He)].
  - exists []. split; [constructor|reflexivity].
  - assert (Hs' : StronglySorted lt (map S ps)).
    { clear He. induction Hs as [|p ps Hs IH Hall]; simpl; constructor.
      - exact IH.
      - apply Forall_map. eapply Forall_impl; [|exact Hall].
        intros q Hq. simpl. lia. }
    assert (He' : map Some (filter f l) = map (nth_error (x :: l)) (map S ps)).
    { rewrite map_map. exact He. }
    simpl. destruct (f x).
    + exists (0%nat :: map S ps). split.
      * constructor; [exact Hs'|]. apply Forall_map, Forall_forall.
        intros q _. lia.
      * simpl. now rewrite He'.
    + exists (map S ps). split; [exact Hs'|exact He'].
Qed.

(** C1. A row of the loaded table is kept by the filter exactly when its
    notes hold one of the nine keywords (letter case apart) or its contact
    is no later than two business days before now; a row under either rule
    or both is kept once, a row under neither is left out, and nothing else
    is in the result. *)
Theorem priority_filter_or_semantics
        (now : Timestamp) (df : DataFrame) (reg dates : list Cell) :
  rectangular df ->
  NoDup (df_index df) ->
  lookup "Registro" (df_columns df) = Some reg ->
  lookup "Data do Atendimento" (df_columns df) = Some dates ->
  exists sel p,
    select_priority now df = Ret sel /\
    df_priority now df = Ret p /\
    map snd (iterrows p) = map snd (iterrows sel) /\
    (forall ir, In ir (iterrows sel) -> In ir (iterrows df)) /\
    forall ir, In ir (iterrows df) ->
      (keyword_rule (snd ir) \/ staleness_rule now (snd ir) ->
       In ir (iterrows sel) /\
       count_occ Nat.eq_dec (df_index sel) (fst ir) = 1%nat) /\
      (~ (keyword_rule (snd ir) \/ staleness_rule now (snd ir)) ->
       ~ In ir (iterrows sel) /\
       count_occ Nat.eq_dec (df_index sel) (fst ir) = 0%nat).
Proof.
  intros Hrect Hnd Hreg Hdat.
  destruct (select_priority_rows now df reg dates Hrect Hreg Hdat) as (sel & Hsel & Hrows).
  exists sel, (reset_index sel). split; [exact Hsel|]. split.
  { unfold df_priority. now rewrite Hsel. }
  split.
  { unfold iterrows, reset_index. simpl. apply rows_of_snd, length_seq. }
  assert (Hidx : df_index sel
                 = map fst (filter (fun ir => row_mask now (snd ir))
                                   (iterrows df))).
  { rewrite <- Hrows. unfold iterrows. now rewrite rows_of_fst. }
  split.
  { intros ir Hin. rewrite Hrows in Hin. now apply filter_In in Hin. }
  intros ir Hin.
  assert (Hc := count_occ_kept (fun ir => row_mask now (snd ir)) (iterrows df)).
  unfold iterrows in Hc at 1. rewrite rows_of_fst in Hc.
  specialize (Hc Hnd ir Hin). rewrite <- Hidx in Hc.
  split; intros Hrule.
  - apply row_mask_spec in Hrule. rewrite Hrule in Hc. split; [|exact Hc].
    rewrite Hrows. apply filter_In. auto.
  - destruct (row_mask now (snd ir)) eqn:E.
    + exfalso. apply Hrule. now apply row_mask_spec.
    + split; [|exact Hc]. rewrite Hrows. intros Hf.
      apply filter_In in Hf. destruct Hf as [_ Hf]. congruence.
Qed.

(** C7. The filter keeps the order of the table: the rows of the result
    are the rows of the table at strictly increasing positions, and the
    re-indexing after the filter only renames them 0, 1, 2, ... *)
Theorem priority_filter_order_preserving
        (now : Timestamp) (df : DataFrame) (reg dates : list Cell) :
  rectangular df ->
  lookup "Registro" (df_columns df) = Some reg ->
  lookup "Data do Atendimento" (df_columns df) = Some dates ->
  exists sel p ps,
    select_priority now df = Ret sel /\
    df_priority now df = Ret p /\
    StronglySorted lt ps /\
    map Some (iterrows sel) = map (nth_error (iterrows df)) ps /\
    map snd (iterrows p) = map snd (iterrows sel) /\
    df_index p = seq 0 (length ps).
Proof.
  intros Hrect Hreg Hdat.
  destruct (select_priority_rows now df reg dates Hrect Hreg Hdat) as (sel & Hsel & Hrows).
  destruct (filter_positions (fun ir => row_mask now (snd ir)) (iterrows df))
    as (ps & Hsorted & Hps).
  exists sel, (reset_index sel), ps. split; [exact Hsel|]. split.
  { unfold df_priority. now rewrite Hsel. }
  split; [exact Hsorted|]. rewrite Hrows. split; [exact Hps|]. split.
  { rewrite <- Hrows. unfold iterrows, reset_index. simpl.
    apply rows_of_snd, length_seq. }
  simpl. f_equal.
  rewrite <- (rows_of_length (df_index sel) (df_columns sel)).
  fold (iterrows sel). rewrite Hrows.
  rewrite <- (length_map Some), Hps. apply length_map.
Qed.

Lemma day_number_within (d tau : Z) :
  0 <= tau < ns_per_day -> day_number (d * ns_per_day + tau) = d.
Proof.
  intros H. unfold day_number. symmetry.
  apply (Z.div_unique _ _ d tau); [left; exact H|lia].
Qed.

(** C3. With now on Monday 2025-01-06, at any time of the day, two
    business days back is Thursday 2025-01-02 at the same time; of two
    rows without a keyword, the one dated 2025-01-01 is kept and the one
    dated 2025-01-03 is not. *)
Theorem staleness_monday_2025_01_06
        (tau s1 s3 : Z) (names agents : list Cell) (n1 n3 : pystr) :
  0 <= tau < ns_per_day ->
  0 <= s1 < ns_per_day ->
  0 <= s3 < ns_per_day ->
  re_search keyword_set n1 = false ->
  re_search keyword_set n3 = false ->
  length names = 2%nat ->
  length agents = 2%nat ->
  let now := timestamp_of_date 2025 1 6 + tau in
  weekday now = 0 /\
  sub_BusinessDay now 2 = timestamp_of_date 2025 1 2 + tau /\
  weekday (sub_BusinessDay now 2) = 3 /\
  exists sel,
    select_priority now
      (sheet_of [Ts (timestamp_of_date 2025 1 1 + s1);
                 Ts (timestamp_of_date 2025 1 3 + s3)]
                names agents [Str n1; Str n3]) = Ret sel /\
    df_index sel = [0%nat].
Proof.
  intros Htau Hs1 Hs3 Hn1 Hn3 Hnames Hagents now.
  assert (Hd : forall y m d,
             timestamp_of_date y m d = days_from_civil y m d * ns_per_day)
    by reflexivity.
  assert (Hw : weekday now = 0).
  { unfold now, weekday. rewrite Hd, day_number_within by exact Htau.
    reflexivity. }
  assert (Hthr : sub_BusinessDay now 2 = timestamp_of_date 2025 1 2 + tau).
  { unfold sub_BusinessDay, BusinessDay_apply. rewrite Hw. unfold now.
    rewrite !Hd.
    change (days_from_civil 2025 1 6) with 20094.
    change (days_from_civil 2025 1 2) with 20090.
    change (7 * (- (2) / 5) + adjust_ndays (- (2)) 0 (- (2) / 5)) with (-4).
    lia. }
  split; [exact Hw|]. split; [exact Hthr|]. split.
  { rewrite Hthr. unfold weekday. rewrite Hd, day_number_within by exact Htau.
    reflexivity. }
  destruct names as [|a [|b [|c names]]]; try discriminate.
  destruct agents as [|a' [|b' [|c' agents]]]; try discriminate.
  set (t1 := timestamp_of_date 2025 1 1 + s1).
  set (t3 := timestamp_of_date 2025 1 3 + s3).
  assert (E1 : (t1 <=? sub_BusinessDay now 2) = true).
  { apply Z.leb_le. rewrite Hthr. unfold t1. rewrite !Hd.
    change (days_from_civil 2025 1 1) with 20089.
    change (days_from_civil 2025 1 2) with 20090. lia. }
  assert (E3 : (t3 <=? sub_BusinessDay now 2) = false).
  { apply Z.leb_gt. rewrite Hthr. unfold t3. rewrite !Hd.
    change (days_from_civil 2025 1 3) with 20091.
    change (days_from_civil 2025 1 2) with 20090. lia. }
  clearbody t1 t3 now.
  eexists. split.
  { apply select_priority_eq; reflexivity. }
  cbn [take_rows df_index sheet_of mask_or map le_timestamp length seq].
  rewrite Hn1, Hn3, E1, E3. reflexivity.
Qed.

(** C6, as the script has it. The filter takes the instant from the system
    clock; what it returns depends on the table and on that reading only:
    two runs on the same table with the clock at the same instant agree, and
    the run changes nothing in the world. *)
Theorem priority_stage_depends_on_clock_only
        (df : DataFrame) (w1 w2 : World) :
  clock w1 = clock w2 ->
  fst (priority_stage df w1) = fst (priority_stage df w2) /\
  snd (priority_stage df w1) = w1.
Proof.
  intros Hc. unfold priority_stage, mbind, Timestamp_now, lift, mret.
  rewrite Hc. destruct (df_priority (clock w2) df) as [p| |]; simpl; auto.
  destruct (df_empty p); simpl; auto.
Qed.

(** ** The loader *)

Ltac lookups :=
  repeat first
    [ rewrite lookup_assign_same
    | rewrite lookup_assign_other by discriminate
    | rewrite lookup_map_snd ].

Lemma fillna_astype_str (v : pystr) (col : list Cell) :
  fillna v (astype_str col) = astype_str col.
Proof.
  unfold fillna, astype_str. rewrite map_map. reflexivity.
Qed.

Lemma fillna_series_astype_str (v : pystr) (b : bool) (col : list Cell) :
  fillna v (series_astype_str b col) = series_astype_str b col.
Proof.
  destruct b; [|apply fillna_astype_str].
  unfold series_astype_str, fillna, datetime64_astype_str.
  rewrite map_map. apply map_ext. intros c. now destruct c.
Qed.

Lemma series_astype_str_length (b : bool) (col : list Cell) :
  length (series_astype_str b col) = length col.
Proof.
  destruct b; unfold series_astype_str, datetime64_astype_str, astype_str;
    apply length_map.
Qed.


Lemma compress_Forall {A} (P : A -> Prop) (l : list A) :
  forall mask, Forall P l -> Forall P (compress mask l).
Proof.
  induction l as [|x l IH]; intros [|b m] H; simpl; try constructor.
  apply Forall_cons_iff in H. destruct H as [Hx Hl].
  destruct b; [constructor; auto|auto].
Qed.



(** Lines 78 to 81 on a frame that has the three columns they read. *)
Lemma clean_eq (df : DataFrame) (dates reg atend : list Cell) :
  lookup "Data do Atendimento" (df_columns df) = Some dates ->
  lookup "Registro" (df_columns df) = Some reg ->
  lookup "Atendente" (df_columns df) = Some atend ->
  let mask := map notna (to_datetime dates) in
  clean df
  = Ret (setitem
           (setitem
              (take_rows mask
                 (setitem df "Data do Atendimento" (to_datetime dates)))
              "Registro" (series_astype_str (is_datetime64 reg) (compress mask reg)))
           "Atendente" (series_astype_str (is_datetime64 atend) (compress mask atend))).
Proof.
  intros Hdat Hreg Hat mask.
  unfold clean, dropna, getitem, getkey. rewrite Hdat. unfold obind at 1.
  unfold setitem at 1 2. cbn [df_columns]. lookups. unfold obind at 1 2.
  unfold take_rows at 1 2. cbn [df_columns]. lookups. rewrite Hreg.
  cbn [option_map]. unfold obind at 1.
  unfold setitem at 1 2. cbn [df_columns]. lookups. rewrite Hat.
  cbn [option_map obind]. rewrite !fillna_series_astype_str.
  unfold dtype_datetime64. rewrite Hreg, Hat. reflexivity.
Qed.

Lemma load_eq (df : DataFrame) (dates names reg atend : list Cell) :
  lookup "Data do Atendimento" (df_columns df) = Some dates ->
  lookup "Nome do Atendido" (df_columns df) = Some names ->
  lookup "Registro" (df_columns df) = Some reg ->
  lookup "Atendente" (df_columns df) = Some atend ->
  let mask := map notna (to_datetime dates) in
  load (Sheet df)
  = Ret (setitem
           (setitem
              (take_rows mask
                 (setitem df "Data do Atendimento" (to_datetime dates)))
              "Registro" (series_astype_str (is_datetime64 reg) (compress mask reg)))
           "Atendente" (series_astype_str (is_datetime64 atend) (compress mask atend))).
Proof.
  intros Hdat Hname Hreg Hat mask.
  unfold load, read_and_clean. rewrite (clean_eq df dates reg atend Hdat Hreg Hat).
  fold mask. unfold obind, check_columns, missing_cols, required_cols.
  unfold has_column, setitem, take_rows. cbn [filter df_columns].
  lookups. rewrite Hname. reflexivity.
Qed.



(** C4, at a row with no agent and no notes. [astype(str)] has already
    turned the missing cells into the text "nan" when [fillna] runs, so the
    row is loaded with "nan" for both and neither default is written. *)
Theorem missing_agent_and_notes_load_as_nan (t : Timestamp) (name : Cell) :
  load (Sheet (sheet_of [Ts t] [name] [NaN] [NaN]))
  = Ret {| df_index := [0%nat];
           df_columns := [("Data do Atendimento", [Ts t]);
                          ("Nome do Atendido", [name]);
                          ("Atendente", [Str (u "nan")]);
                          ("Registro", [Str (u "nan")])] |}.
Proof.
  rewrite (load_eq _ [Ts t] [name] [NaN] [NaN]) by reflexivity.
  reflexivity.
Qed.

(** C5, where the date column is absent. The column is read inside the
    [try] of lines 76 to 84, before line 87 looks for missing columns: the
    run halts on the [KeyError], under the notice of a failed read. *)
Theorem missing_date_column_is_a_read_failure (df : DataFrame) :
  lookup "Data do Atendimento" (df_columns df) = None ->
  load (Sheet df) = Stop (LoadFailed (KeyError "Data do Atendimento")) /\
  In "Data do Atendimento" (missing_cols df).
Proof.
  intros H. split.
  - unfold load, read_and_clean, clean, getitem, getkey. now rewrite H.
  - unfold missing_cols, required_cols, has_column. cbn [filter].
    rewrite H. now left.
Qed.
(** ** The credential *)

(** C9, where no secrets file exists. The lookup of line 30 then raises an
    error that is no [KeyError]: the [except] of line 33 does not catch it,
    the environment variable is never read, and the run ends on that
    exception instead of going on with the key of the environment or
    halting on the notice of line 40. *)
Theorem missing_secrets_file_is_no_fallback (inp : Inputs) (now : Timestamp) :
  secrets inp = None ->
  resolve_api_key (secrets inp) (environ inp) = Raise SecretNotFound /\
  app inp now = (Raise SecretNotFound, []).
Proof.
  intros H. unfold app, resolve_api_key, secrets_api_key. rewrite H.
  split; reflexivity.
Qed.

Lemma secrets_api_key_absent (top : list (string * Secret)) :
  lookup "openai" top = None \/
  (exists table, lookup "openai" top = Some (STable table) /\
                 lookup "api_key" table = None) ->
  exists key, secrets_api_key (Some top) = Raise (KeyError key).
Proof.
  unfold secrets_api_key, getkey. intros [H|(table & H & Hk)]; rewrite H.
  - eexists. reflexivity.
  - unfold obind at 1. rewrite Hk. eexists. reflexivity.
Qed.

(** X18. The credential, where a secrets file exists. A text under
    [openai.api_key] is the key, whatever the environment holds; when the
    table [openai] or its entry [api_key] is absent the key is the value of
    OPENAI_API_KEY if that is set and not empty, and otherwise the run
    halts on the notice of line 40 before anything else is done; an entry
    [openai] that is no table ends the run on a [TypeError]. *)
Theorem credential_from_secrets_or_environment
        (inp : Inputs) (now : Timestamp) (top : list (string * Secret)) :
  secrets inp = Some top ->
  (forall table k,
      lookup "openai" top = Some (STable table) ->
      lookup "api_key" table = Some (SText k) ->
      resolve_api_key (secrets inp) (environ inp) = Ret (SText k)) /\
  (lookup "openai" top = None \/
   (exists table, lookup "openai" top = Some (STable table) /\
                  lookup "api_key" table = None) ->
   (forall k, lookup "OPENAI_API_KEY" (environ inp) = Some k -> k <> [] ->
              resolve_api_key (secrets inp) (environ inp) = Ret (SText k)) /\
   (lookup "OPENAI_API_KEY" (environ inp) = None \/
    lookup "OPENAI_API_KEY" (environ inp) = Some [] ->
    app inp now = (Stop NoApiKey, []))) /\
  (forall v, lookup "openai" top = Some v ->
             (forall table, v <> STable table) ->
             app inp now = (Raise TypeError, [])).
Proof.
  intros Hs. unfold app, resolve_api_key. rewrite Hs. split; [|split].
  - intros table k Ho Hk. unfold secrets_api_key, getkey. rewrite Ho.
    unfold obind at 1. rewrite Hk. reflexivity.
  - intros Hmiss. destruct (secrets_api_key_absent top Hmiss) as [key E].
    rewrite E. split.
    + intros k Hk Hne. rewrite Hk. destruct k; [contradiction|reflexivity].
    + intros [-> | ->]; reflexivity.
  - intros v Ho Hv. unfold secrets_api_key, getkey. rewrite Ho.
    unfold obind at 1.
    destruct v as [s|table|l|]; try reflexivity.
    exfalso. now apply (Hv table).
Qed.

(** ** The report *)

Lemma split_go_blank (s : pystr) :
  forallb isspace s = true -> split_go [] s = [].
Proof.
  induction s as [|c s IH]; simpl; [reflexivity|].
  intros H. apply andb_true_iff in H. destruct H as [Hc Hs].
  rewrite Hc. now apply IH.
Qed.

Lemma first_word_blank (s : pystr) :
  forallb isspace s = true -> first_word (Str s) = Raise IndexError.
Proof.
  intros H. unfold first_word, split. simpl. now rewrite split_go_blank.
Qed.

Lemma lead_text_blank (row : Row) (s : pystr) :
  lookup "Atendente" row = Some (Str s) ->
  forallb isspace s = true ->
  lead_text row = Raise IndexError.
Proof.
  intros Hl Hb. unfold lead_text, getkey. rewrite Hl. unfold obind at 1.
  now rewrite first_word_blank.
Qed.

(** One turn of the loop, for a lead whose text could be built. *)
Lemma report_lead_eq (total : nat) (ir : nat * Row) (l : LeadText) (w : World) :
  lead_text (snd ir) = Ret l ->
  let r := create (api w) agent_prompt (user_content l) in
  report_lead total ir w
  = (Ret (section_of (fst r) l),
     {| clock := clock w; api := snd r;
        screen := screen w ++ [Progress (fst ir + 1) total]
                  ++ match fst r with
                     | ApiError => [ApiFailed (nome l)]
                     | Content _ => []
                     end |}).
Proof.
  intros Hl r. unfold report_lead, mbind, show, lift, chat, mret.
  cbn [api clock screen]. rewrite Hl. fold r.
  destruct r as [[c|] s]; cbn [fst snd section_of api clock screen].
  - now rewrite app_nil_r.
  - now rewrite <- app_assoc.
Qed.

(** One turn of the loop, for a lead whose text cannot be built. *)
Lemma report_lead_raise (total : nat) (ir : nat * Row) (e : Exn) (w : World) :
  lead_text (snd ir) = Raise e ->
  fst (report_lead total ir w) = Raise e.
Proof.
  intros Hl. unfold report_lead, mbind, show, lift. now rewrite Hl.
Qed.

(** The loop stops at the first lead whose text cannot be built, whatever
    the service answers for the leads before it. *)
Lemma loop_aborts (total : nat) (pre : list (nat * Row)) :
  forall (bad : nat * Row) (post : list (nat * Row)) (e : Exn) (w : World),
    Forall (fun ir => exists l, lead_text (snd ir) = Ret l) pre ->
    lead_text (snd bad) = Raise e ->
    fst (relatorio_completo total (pre ++ bad :: post) w) = Raise e.
Proof.
  induction pre as [|ir pre IH]; intros bad post e w Hpre Hbad.
  - simpl. unfold mbind.
    pose proof (report_lead_raise total bad e w Hbad) as H.
    destruct (report_lead total bad w) as [[sec| |] w']; simpl in H;
      try discriminate. now injection H as ->.
  - apply Forall_cons_iff in Hpre. destruct Hpre as [[l Hl] Hpre].
    simpl. unfold mbind at 1. rewrite (report_lead_eq total ir l w Hl).
    cbv zeta. unfold mbind at 1.
    match goal with |- context [relatorio_completo total _ ?w'] =>
      specialize (IH bad post e w' Hpre Hbad);
      destruct (relatorio_completo total (pre ++ bad :: post) w')
        as [[secs| |] w''] end; simpl in IH; try discriminate.
    now injection IH as ->.
Qed.

Lemma gerar_relatorio_aborts (df : DataFrame) (pre : list (nat * Row))
      (bad : nat * Row) (post : list (nat * Row)) (e : Exn) (w : World) :
  iterrows df = pre ++ bad :: post ->
  Forall (fun ir => exists l, lead_text (snd ir) = Ret l) pre ->
  lead_text (snd bad) = Raise e ->
  fst (gerar_relatorio df w) = Raise e.
Proof.
  intros Hrows Hpre Hbad. unfold gerar_relatorio, sections_of, mbind at 1.
  rewrite Hrows.
  pose proof (loop_aborts (length (df_index df)) pre bad post e w Hpre Hbad) as H.
  destruct (relatorio_completo _ (pre ++ bad :: post) w) as [[secs| |] w'];
    simpl in H; try discriminate. now injection H as ->.
Qed.

(** C10. An agent name that is empty or all whitespace passes the loader
    as it is; for it the first-word step raises [IndexError], where a
    missing name gives "N/A"; the exception is raised before the [try], so
    the whole report is lost, whatever the service answers. *)
Theorem blank_agent_name_aborts_report (s : pystr) :
  forallb isspace s = true ->
  fillna (u "Não Informado") (astype_str [Str s]) = [Str s] /\
  first_word (Str s) = Raise IndexError /\
  first_word NaN = Ret (u "N/A") /\
  forall (df : DataFrame) (pre : list (nat * Row)) (bad : nat * Row)
         (post : list (nat * Row)) (w : World),
    iterrows df = pre ++ bad :: post ->
    Forall (fun ir => exists l, lead_text (snd ir) = Ret l) pre ->
    lookup "Atendente" (snd bad) = Some (Str s) ->
    fst (gerar_relatorio df w) = Raise IndexError.
Proof.
  intros Hb. split; [reflexivity|]. split; [now apply first_word_blank|].
  split; [reflexivity|].
  intros df pre bad post w Hrows Hpre Hbad.
  eapply gerar_relatorio_aborts; eauto using lead_text_blank.
Qed.


(** ** More on the report *)

(** The loop of [gerar_relatorio], when the text of every lead can be
    built: one call per lead, in the order of the rows, each on the state
    the call before left; one item per lead, the answer of its call or the
    fallback section; the clock is not touched. *)
Lemma relatorio_completo_run (total : nat) (rows : list (nat * Row))
        (leads : list LeadText) :
  Forall2 (fun ir l => lead_text (snd ir) = Ret l) rows leads ->
  forall w : World,
  exists w',
    relatorio_completo total rows w = (Ret (sections_for (api w) leads), w') /\
    api w' = api_after (api w) leads /\
    clock w' = clock w /\
    length (sections_for (api w) leads) = length rows.
Proof using Type.
  induction 1 as [|ir l rows leads Hl HF IH]; intros w.
  - exists w. repeat split; reflexivity.
  - simpl relatorio_completo. unfold mbind at 1.
    rewrite (report_lead_eq total ir l w Hl). cbv zeta.
    unfold mbind at 1.
    match goal with |- context [relatorio_completo total rows ?w1] =>
      destruct (IH w1) as (w' & Hrun & Hapi & Hclock & Hlen);
      rewrite Hrun end.
    exists w'. cbn [api clock] in *. unfold mret.
    unfold sections_for in *. cbn [api_trace api_after combine map length].
    repeat split; try assumption. now rewrite Hlen.
Qed.

Lemma all_text_Some (texts : list pystr) :
  all_text (map Some texts) = Ret texts.
Proof using Type.
  induction texts as [|t texts IH]; simpl; [reflexivity|]. now rewrite IH.
Qed.

Lemma all_text_None (secs : list (option pystr)) :
  In None secs -> all_text secs = Raise TypeError.
Proof using Type.
  induction secs as [|[s|] secs IH]; intros Hin; simpl.
  - contradiction.
  - destruct Hin as [Hin|Hin]; [discriminate|]. now rewrite IH.
  - reflexivity.
Qed.

Lemma api_trace_length (leads : list LeadText) :
  forall s, length (api_trace s leads) = length leads.
Proof using Type.
  induction leads as [|l leads IH]; intros s; simpl; [reflexivity|].
  now rewrite IH.
Qed.

(** When the text of every lead can be built and every item is text, the
    report is the items joined, in the order of the rows. *)
Lemma gerar_relatorio_joins_sections
        (df : DataFrame) (leads : list LeadText) (texts : list pystr)
        (w : World) :
  Forall2 (fun ir l => lead_text (snd ir) = Ret l) (iterrows df) leads ->
  sections_for (api w) leads = map Some texts ->
  fst (gerar_relatorio df w) = Ret (join texts) /\
  length texts = length (df_index df).
Proof using Type.
  intros HF Hs.
  destruct (relatorio_completo_run (length (df_index df)) (iterrows df) leads
              HF w) as (w' & Hrun & _ & _ & Hlen).
  unfold gerar_relatorio, sections_of, mbind at 1. rewrite Hrun.
  unfold mbind, lift, mret. rewrite Hs, all_text_Some. split; [reflexivity|].
  rewrite Hs, length_map in Hlen. rewrite Hlen. unfold iterrows.
  apply rows_of_length.
Qed.

(** X1. Fault isolation. When the text of every lead can be built, the call
    fails for lead [k] and answers with a text for every other lead, the
    report has one section per lead in the order of the rows: the fallback
    section for lead [k] and the text of the service for the others. *)
Theorem gerar_relatorio_fault_isolation
        (df : DataFrame) (leads : list LeadText) (k : nat) (lk : LeadText)
        (w : World) :
  Forall2 (fun ir l => lead_text (snd ir) = Ret l) (iterrows df) leads ->
  nth_error leads k = Some lk ->
  nth_error (api_trace (api w) leads) k = Some ApiError ->
  (forall i r, i <> k -> nth_error (api_trace (api w) leads) i = Some r ->
               exists text, r = Content (Some text)) ->
  exists texts,
    fst (gerar_relatorio df w) = Ret (join texts) /\
    length texts = length (df_index df) /\
    nth_error texts k = Some (fallback_section lk) /\
    forall i text,
      i <> k ->
      nth_error (api_trace (api w) leads) i = Some (Content (Some text)) ->
      nth_error texts i = Some text.
Proof using Type.
  intros HF Hk Hfail Hothers.
  set (trace := api_trace (api w) leads) in *.
  assert (Hlen : length trace = length leads)
    by apply api_trace_length.
  assert (Hsec : forall i, nth_error (sections_for (api w) leads) i
                           = match nth_error trace i, nth_error leads i with
                             | Some r, Some l => Some (section_of r l)
                             | _, _ => None
                             end).
  { unfold sections_for. fold trace. clearbody trace. clear -Hlen.
    revert trace Hlen. induction leads as [|l leads IH];
      intros [|r trace] Hlen i; try discriminate.
    - destruct i; reflexivity.
    - destruct i as [|i]; simpl; [reflexivity|]. apply IH. now injection Hlen. }
  assert (Hall : forall i o, nth_error (sections_for (api w) leads) i = Some o ->
                             exists text, o = Some text).
  { intros i o Hi. rewrite Hsec in Hi.
    destruct (nth_error trace i) as [r|] eqn:Er; [|discriminate].
    destruct (nth_error leads i) as [l|] eqn:El; [|discriminate].
    injection Hi as <-. destruct (Nat.eq_dec i k) as [->|Hne].
    - rewrite Hfail in Er. injection Er as <-. simpl. eauto.
    - destruct (Hothers i r Hne Er) as [text ->]. simpl. eauto. }
  assert (Htexts : exists texts, sections_for (api w) leads = map Some texts).
  { clear -Hall. induction (sections_for (api w) leads) as [|o secs IH].
    - exists []. reflexivity.
    - destruct (Hall 0%nat o eq_refl) as [text ->].
      destruct IH as [texts IH].
      + intros i o' Hi. apply (Hall (S i) o' Hi).
      + exists (text :: texts). simpl. now rewrite IH. }
  destruct Htexts as [texts Htexts]. exists texts.
  destruct (gerar_relatorio_joins_sections df leads texts w HF Htexts)
    as [Hrun Hl].
  split; [exact Hrun|]. split; [exact Hl|].
  assert (Hnth : forall i, nth_error (map Some texts) i
                           = match nth_error trace i, nth_error leads i with
                             | Some r, Some l => Some (section_of r l)
                             | _, _ => None
                             end).
  { intros i. rewrite <- Htexts. apply Hsec. }
  split.
  - specialize (Hnth k). rewrite Hfail, Hk, nth_error_map in Hnth.
    destruct (nth_error texts k); simpl in Hnth; [|discriminate].
    now injection Hnth as ->.
  - intros i text Hne Hi. specialize (Hnth i). rewrite Hi, nth_error_map in Hnth.
    destruct (nth_error leads i) as [l|] eqn:El.
    + destruct (nth_error texts i); simpl in Hnth; [|discriminate].
      now injection Hnth as ->.
    + exfalso. apply nth_error_None in El.
      assert (Hsome : nth_error trace i <> None) by (rewrite Hi; discriminate).
      apply nth_error_Some in Hsome. lia.
Qed.

(** X3. An answer without content. When the text of every lead can be built
    and the service answers some lead with no content ([None]), the item is
    appended as it is and the join of line 208 raises [TypeError]: the whole
    report is lost, after every call has been made. *)
Theorem gerar_relatorio_content_none
        (df : DataFrame) (leads : list LeadText) (w : World) :
  Forall2 (fun ir l => lead_text (snd ir) = Ret l) (iterrows df) leads ->
  In (Content None) (api_trace (api w) leads) ->
  fst (gerar_relatorio df w) = Raise TypeError /\
  api (snd (gerar_relatorio df w)) = api_after (api w) leads.
Proof using Type.
  intros HF Hin.
  destruct (relatorio_completo_run (length (df_index df)) (iterrows df) leads
              HF w) as (w' & Hrun & Hapi & _ & _).
  assert (Hnone : In None (sections_for (api w) leads)).
  { unfold sections_for. revert Hin. generalize (api w). clear.
    induction leads as [|l leads IH]; intros s Hin; [contradiction|].
    simpl in *. destruct Hin as [Hin|Hin].
    - left. now rewrite Hin.
    - right. now apply IH. }
  assert (E : gerar_relatorio df w = (Raise TypeError, w')).
  { unfold gerar_relatorio, sections_of, mbind at 1. rewrite Hrun.
    unfold mbind, lift. now rewrite (all_text_None _ Hnone). }
  rewrite E. split; [reflexivity|exact Hapi].
Qed.

(** X4. One call per lead. When the text of every lead can be built, the loop
    calls the service once for each row, in the order of the rows and each
    call on the state the one before left, whatever the answers are; the
    clock is not touched. *)
Theorem gerar_relatorio_one_call_per_lead
        (df : DataFrame) (leads : list LeadText) (w : World) :
  Forall2 (fun ir l => lead_text (snd ir) = Ret l) (iterrows df) leads ->
  api (snd (gerar_relatorio df w)) = api_after (api w) leads /\
  clock (snd (gerar_relatorio df w)) = clock w /\
  length (api_trace (api w) leads) = length (df_index df).
Proof using Type.
  intros HF.
  destruct (relatorio_completo_run (length (df_index df)) (iterrows df) leads
              HF w) as (w' & Hrun & Hapi & Hclock & _).
  assert (E : snd (gerar_relatorio df w) = w').
  { unfold gerar_relatorio, sections_of, mbind at 1. rewrite Hrun.
    unfold mbind, lift, mret.
    destruct (all_text (sections_for (api w) leads)); reflexivity. }
  rewrite E. split; [exact Hapi|]. split; [exact Hclock|].
  rewrite api_trace_length, <- (Forall2_length HF).
  unfold iterrows. apply rows_of_length.
Qed.

Lemma sections_for_all_content (texts : list pystr) :
  forall leads : list LeadText,
    length leads = length texts ->
    map (fun rl : ApiResult * LeadText => section_of (fst rl) (snd rl))
        (combine (map (fun t => Content (Some t)) texts) leads)
    = map Some texts.
Proof using Type.
  induction texts as [|t texts IH]; intros [|l leads] H; try discriminate.
  - reflexivity.
  - simpl. injection H as H. now rewrite (IH leads H).
Qed.

(** X2. The answers are taken as they are. When the text of every lead can be
    built and every call answers with a text, the report is those texts
    joined in the order of the rows, nothing added and nothing checked. *)
Theorem gerar_relatorio_trusts_answers_verbatim
        (df : DataFrame) (leads : list LeadText) (texts : list pystr)
        (w : World) :
  Forall2 (fun ir l => lead_text (snd ir) = Ret l) (iterrows df) leads ->
  api_trace (api w) leads = map (fun t => Content (Some t)) texts ->
  fst (gerar_relatorio df w) = Ret (join texts) /\
  length texts = length (df_index df).
Proof using Type.
  intros HF Htrace.
  apply (gerar_relatorio_joins_sections df leads texts w HF).
  unfold sections_for. rewrite Htrace. apply sections_for_all_content.
  rewrite <- (api_trace_length leads (api w)), Htrace. apply length_map.
Qed.

(** ** More on the loader *)

Lemma clean_missing (df : DataFrame) :
  (lookup "Data do Atendimento" (df_columns df) = None ->
   clean df = Raise (KeyError "Data do Atendimento")) /\
  (lookup "Data do Atendimento" (df_columns df) <> None ->
   lookup "Registro" (df_columns df) = None ->
   clean df = Raise (KeyError "Registro")) /\
  (lookup "Data do Atendimento" (df_columns df) <> None ->
   lookup "Registro" (df_columns df) <> None ->
   lookup "Atendente" (df_columns df) = None ->
   clean df = Raise (KeyError "Atendente")).
Proof using Type.
  unfold clean, dropna, getitem, getkey. repeat split.
  - intros H. now rewrite H.
  - intros Hd Hr.
    destruct (lookup "Data do Atendimento" (df_columns df)) as [dates|];
      [|contradiction].
    unfold obind at 1. unfold setitem at 1 2. cbn [df_columns]. lookups.
    unfold obind at 1 2. unfold take_rows at 1 2. cbn [df_columns]. lookups.
    rewrite Hr. reflexivity.
  - intros Hd Hr Ha.
    destruct (lookup "Data do Atendimento" (df_columns df)) as [dates|];
      [|contradiction].
    destruct (lookup "Registro" (df_columns df)) as [reg|] eqn:Er;
      [|contradiction].
    unfold obind at 1. unfold setitem at 1 2. cbn [df_columns]. lookups.
    unfold obind at 1 2. unfold take_rows at 1 2. cbn [df_columns]. lookups.
    rewrite Er. cbn [option_map]. unfold obind at 1.
    unfold setitem at 1 2. cbn [df_columns]. lookups. rewrite Ha. reflexivity.
Qed.

Lemma load_missing_name (df : DataFrame) (dates reg atend : list Cell) :
  lookup "Data do Atendimento" (df_columns df) = Some dates ->
  lookup "Registro" (df_columns df) = Some reg ->
  lookup "Atendente" (df_columns df) = Some atend ->
  lookup "Nome do Atendido" (df_columns df) = None ->
  load (Sheet df) = Stop (MissingColumns ["Nome do Atendido"]).
Proof using Type.
  intros Hdat Hreg Hat Hname.
  unfold load, read_and_clean. rewrite (clean_eq df dates reg atend Hdat Hreg Hat).
  unfold obind, check_columns, missing_cols, required_cols.
  unfold has_column, setitem, take_rows. cbn [filter df_columns].
  lookups. rewrite Hname. reflexivity.
Qed.

(** How a load can end. *)
Lemma load_cases (book : Workbook) :
  (exists n, load book = Stop n /\
             (forall m, n = MissingColumns m -> m = ["Nome do Atendido"])) \/
  (exists df dates names reg atend,
     book = Sheet df /\
     lookup "Data do Atendimento" (df_columns df) = Some dates /\
     lookup "Nome do Atendido" (df_columns df) = Some names /\
     lookup "Registro" (df_columns df) = Some reg /\
     lookup "Atendente" (df_columns df) = Some atend /\
     load book
     = Ret (setitem
              (setitem
                 (take_rows (map notna (to_datetime dates))
                    (setitem df "Data do Atendimento" (to_datetime dates)))
                 "Registro"
                 (series_astype_str (is_datetime64 reg)
                    (compress (map notna (to_datetime dates)) reg)))
              "Atendente"
              (series_astype_str (is_datetime64 atend)
                    (compress (map notna (to_datetime dates)) atend)))).
Proof using Type.
  destruct book as [| |df].
  - left. exists NoFile. split; [reflexivity|discriminate].
  - left. exists (LoadFailed ExcelError). split; [reflexivity|discriminate].
  - destruct (clean_missing df) as (H1 & H2 & H3).
    destruct (lookup "Data do Atendimento" (df_columns df)) as [dates|] eqn:Ed.
    2:{ left. exists (LoadFailed (KeyError "Data do Atendimento")).
        split; [|discriminate].
        unfold load, read_and_clean. now rewrite (H1 eq_refl). }
    destruct (lookup "Registro" (df_columns df)) as [reg|] eqn:Er.
    2:{ left. exists (LoadFailed (KeyError "Registro")).
        split; [|discriminate].
        unfold load, read_and_clean.
        rewrite H2; [reflexivity|discriminate|reflexivity]. }
    destruct (lookup "Atendente" (df_columns df)) as [atend|] eqn:Ea.
    2:{ left. exists (LoadFailed (KeyError "Atendente")).
        split; [|discriminate].
        unfold load, read_and_clean.
        rewrite H3; [reflexivity|discriminate|discriminate|reflexivity]. }
    destruct (lookup "Nome do Atendido" (df_columns df)) as [names|] eqn:En.
    + right. exists df, dates, names, reg, atend.
      repeat split; try assumption.
      apply (load_eq df dates names reg atend Ed En Er Ea).
    + left. eexists. split.
      * apply (load_missing_name df dates reg atend Ed Er Ea En).
      * intros m Hm. now injection Hm as <-.
Qed.

(** X9. The check of lines 86 to 90 can name one column only. When the load
    halts on missing columns, the list shown is ["Nome do Atendido"]: the
    other three required columns are read before the check, inside the
    [try]. *)
Theorem missing_columns_names_one_column (book : Workbook) (m : list string) :
  load book = Stop (MissingColumns m) -> m = ["Nome do Atendido"].
Proof using Type.
  intros H. destruct (load_cases book) as [(n & Hn & Hm)|Hok].
  - rewrite Hn in H. injection H as ->. now apply Hm.
  - destruct Hok as (df & dates & names & reg & atend & _ & _ & _ & _ & _ & Hl).
    rewrite Hl in H. discriminate.
Qed.

(** X10. A required column that the [try] reads and the sheet lacks. When
    the date, the notes or the agent column is absent, the load halts under
    the notice of a failed read, on the [KeyError] of one of the three that
    is absent. *)
Theorem absent_read_column_is_a_read_failure (df : DataFrame) :
  lookup "Data do Atendimento" (df_columns df) = None \/
  lookup "Registro" (df_columns df) = None \/
  lookup "Atendente" (df_columns df) = None ->
  exists c,
    In c ["Data do Atendimento"; "Registro"; "Atendente"] /\
    lookup c (df_columns df) = None /\
    load (Sheet df) = Stop (LoadFailed (KeyError c)).
Proof using Type.
  intros H. destruct (clean_missing df) as (H1 & H2 & H3).
  unfold load, read_and_clean.
  destruct (lookup "Data do Atendimento" (df_columns df)) as [dates|] eqn:Ed.
  2:{ exists "Data do Atendimento". rewrite (H1 eq_refl). simpl. auto. }
  destruct (lookup "Registro" (df_columns df)) as [reg|] eqn:Er.
  2:{ exists "Registro". rewrite H2 by (discriminate || reflexivity).
      simpl. auto. }
  destruct (lookup "Atendente" (df_columns df)) as [atend|] eqn:Ea.
  2:{ exists "Atendente". rewrite H3 by (discriminate || reflexivity).
      simpl. auto. }
  destruct H as [H|[H|H]]; discriminate.
Qed.

Lemma combine_compress {A B} (mask : list bool) :
  forall (l1 : list A) (l2 : list B),
    combine (compress mask l1) (compress mask l2)
    = compress mask (combine l1 l2).
Proof using Type.
  induction mask as [|b mask IH]; intros [|x l1] [|y l2]; simpl;
    try reflexivity.
  - destruct b; [|destruct (compress mask l1)]; reflexivity.
  - destruct b; simpl; now rewrite IH.
Qed.

Lemma combine_map_r {A B C} (f : B -> C) (l1 : list A) :
  forall l2 : list B,
    combine l1 (map f l2) = map (fun p => (fst p, f (snd p))) (combine l1 l2).
Proof using Type.
  induction l1 as [|x l1 IH]; intros [|y l2]; simpl; try reflexivity.
  now rewrite IH.
Qed.

(** X11. The notes and the agent of the loaded table, row by row. The rows
    kept are those whose date was parsed. When [read_excel] did not type
    the notes column datetime64, the labels of the loaded table paired
    with its notes are the labels of the kept rows of the sheet paired
    with the text [str()] gives for the notes cell of the same row, in the
    order of the sheet; likewise for the agent. The defaults of lines 80
    and 81 are never written: a missing cell becomes "nan". *)
Theorem loaded_notes_and_agents_are_str_of_cells
        (df df' : DataFrame) (dates reg atend : list Cell) :
  lookup "Data do Atendimento" (df_columns df) = Some dates ->
  lookup "Registro" (df_columns df) = Some reg ->
  lookup "Atendente" (df_columns df) = Some atend ->
  load (Sheet df) = Ret df' ->
  exists reg' atend',
    lookup "Registro" (df_columns df') = Some reg' /\
    lookup "Atendente" (df_columns df') = Some atend' /\
    (is_datetime64 reg = false ->
     combine (df_index df') reg'
     = map (fun lc => (fst lc, Str (py_str (snd lc))))
           (compress (map notna (to_datetime dates))
                     (combine (df_index df) reg))) /\
    (is_datetime64 atend = false ->
     combine (df_index df') atend'
     = map (fun lc => (fst lc, Str (py_str (snd lc))))
           (compress (map notna (to_datetime dates))
                     (combine (df_index df) atend))).
Proof using Type.
  intros Hdat Hreg Hat Hload.
  destruct (load_cases (Sheet df)) as [(n & Hn & _)|Hok].
  { rewrite Hn in Hload. discriminate. }
  destruct Hok as (df0 & dates0 & names & reg0 & atend0 & Hb & Hd & _ & Hr & Ha
                   & Hl).
  injection Hb as <-. rewrite Hdat in Hd. rewrite Hreg in Hr. rewrite Hat in Ha.
  injection Hd as <-. injection Hr as <-. injection Ha as <-.
  rewrite Hl in Hload. injection Hload as <-.
  eexists. eexists. unfold setitem, take_rows. cbn [df_columns df_index].
  split; [lookups; reflexivity|]. split; [lookups; reflexivity|].
  split; intros ->; unfold series_astype_str, astype_str;
    now rewrite combine_map_r, combine_compress.
Qed.

Lemma compress_length_eq {A B} (l1 : list A) :
  forall (l2 : list B) (mask : list bool),
    length l1 = length l2 ->
    length (compress mask l1) = length (compress mask l2).
Proof using Type.
  induction l1 as [|x l1 IH]; intros [|y l2] [|b m] H; try discriminate;
    simpl; try reflexivity.
  injection H as H. destruct b; simpl; auto.
Qed.

Lemma compress_In {A} (l : list A) :
  forall (mask : list bool) (x : A), In x (compress mask l) -> In x l.
Proof using Type.
  induction l as [|y l IH]; intros [|b m] x H; simpl in *; try contradiction.
  destruct b; simpl in H; [destruct H as [H|H]|]; eauto.
Qed.

Lemma compress_NoDup {A} (l : list A) :
  forall mask : list bool, NoDup l -> NoDup (compress mask l).
Proof using Type.
  induction l as [|y l IH]; intros [|b m] H; simpl; try constructor.
  apply NoDup_cons_iff in H. destruct H as [Hy Hl].
  destruct b; [|now apply IH].
  constructor; [|now apply IH]. intros Hin. apply Hy.
  eapply compress_In. exact Hin.
Qed.

Lemma assign_Forall {V} (P : V -> Prop) (k : string) (v : V)
      (l : list (string * V)) :
  P v ->
  Forall (fun kc => P (snd kc)) l ->
  Forall (fun kc => P (snd kc)) (assign k v l).
Proof using Type.
  intros Hv H. induction H as [|[k' x] l Hx Hl IH]; simpl.
  - constructor; [exact Hv|constructor].
  - destruct (String.eqb k' k); constructor; auto.
Qed.

Lemma assign_keys {V} (k : string) (v : V) (l : list (string * V)) :
  lookup k l <> None -> map fst (assign k v l) = map fst l.
Proof using Type.
  induction l as [|[k' x] l IH]; simpl; [contradiction|].
  destruct (String.eqb k' k); simpl; [reflexivity|].
  intros H. now rewrite IH.
Qed.

Lemma load_result_rectangular (df : DataFrame) (dates reg atend : list Cell) :
  rectangular df ->
  lookup "Data do Atendimento" (df_columns df) = Some dates ->
  lookup "Registro" (df_columns df) = Some reg ->
  lookup "Atendente" (df_columns df) = Some atend ->
  rectangular
    (setitem
       (setitem
          (take_rows (map notna (to_datetime dates))
             (setitem df "Data do Atendimento" (to_datetime dates)))
          "Registro"
          (series_astype_str (is_datetime64 reg)
                    (compress (map notna (to_datetime dates)) reg)))
       "Atendente"
       (series_astype_str (is_datetime64 atend)
                    (compress (map notna (to_datetime dates)) atend))).
Proof using Type.
  intros Hrect Hd Hr Ha.
  set (mask := map notna (to_datetime dates)).
  pose proof (rectangular_column df _ dates Hrect Hd) as Ld.
  pose proof (rectangular_column df _ reg Hrect Hr) as Lr.
  pose proof (rectangular_column df _ atend Hrect Ha) as La.
  unfold rectangular, setitem, take_rows. cbn [df_columns df_index].
  apply (assign_Forall (fun col => length col = length (compress mask (df_index df)))).
  { rewrite series_astype_str_length. now apply compress_length_eq. }
  apply (assign_Forall (fun col => length col = length (compress mask (df_index df)))).
  { rewrite series_astype_str_length. now apply compress_length_eq. }
  apply Forall_map. cbn [snd].
  apply (assign_Forall (fun col => length (compress mask col)
                                   = length (compress mask (df_index df)))).
  { apply compress_length_eq. unfold to_datetime. now rewrite length_map. }
  eapply Forall_impl; [|exact Hrect].
  intros kc Hk. now apply compress_length_eq.
Qed.

(** X12. The load keeps the shape of the frame: the result is rectangular, has
    the columns of the sheet in their order, and its rows carry labels of
    the sheet, distinct when those of the sheet are. *)
Theorem load_keeps_frame_shape (df df' : DataFrame) :
  rectangular df ->
  load (Sheet df) = Ret df' ->
  rectangular df' /\
  map fst (df_columns df') = map fst (df_columns df) /\
  (forall lab, In lab (df_index df') -> In lab (df_index df)) /\
  (NoDup (df_index df) -> NoDup (df_index df')).
Proof using Type.
  intros Hrect Hload.
  destruct (load_cases (Sheet df)) as [(n & Hn & _)|Hok].
  { rewrite Hn in Hload. discriminate. }
  destruct Hok as (df0 & dates & names & reg & atend & Hb & Hd & _ & Hr & Ha & Hl).
  injection Hb as <-. rewrite Hl in Hload. injection Hload as <-.
  split; [now apply load_result_rectangular|].
  unfold setitem, take_rows. cbn [df_columns df_index].
  split; [|split].
  - rewrite !assign_keys.
    + rewrite map_map. cbn [fst]. apply assign_keys. rewrite Hd. discriminate.
    + lookups. rewrite Hr. discriminate.
    + lookups. rewrite Ha. discriminate.
  - intros lab. apply compress_In.
  - apply compress_NoDup.
Qed.

(** ** More on the filter *)

(** X15. The threshold of line 95 is a working day at the time of day of now:
    four days back when now is a Monday or a Tuesday, three when it is a
    Sunday, two otherwise. *)
Theorem two_bd_ago_is_a_weekday (t : Timestamp) :
  sub_BusinessDay t 2
  = t - (if weekday t <=? 1 then 4 else if weekday t =? 6 then 3 else 2)
        * ns_per_day /\
  0 <= weekday (sub_BusinessDay t 2) <= 4.
Proof using Type.
  pose proof (weekday_range t) as Hr.
  assert (Hs : forall k, weekday (t - k * ns_per_day) = (weekday t - k) mod 7).
  { intros k. replace (t - k * ns_per_day) with (t + (- k) * ns_per_day) by lia.
    rewrite weekday_shift. f_equal. }
  assert (Heq : sub_BusinessDay t 2
                = t - (if weekday t <=? 1 then 4
                       else if weekday t =? 6 then 3 else 2) * ns_per_day).
  { unfold sub_BusinessDay, BusinessDay_apply.
    change ((- (2)) / 5) with (-1).
    assert (Hcases : weekday t = 0 \/ weekday t = 1 \/ weekday t = 2 \/
                     weekday t = 3 \/ weekday t = 4 \/ weekday t = 5 \/
                     weekday t = 6) by lia.
    remember ns_per_day as D eqn:HD.
    destruct Hcases as [H|[H|[H|[H|[H|[H|H]]]]]]; rewrite H;
      match goal with
      | |- context [adjust_ndays ?a ?b ?c] =>
        let v := eval vm_compute in (adjust_ndays a b c) in
        change (adjust_ndays a b c) with v
      end; cbn [Z.leb Z.eqb Z.compare Pos.compare Pos.compare_cont Pos.eqb];
      lia. }
  split; [exact Heq|]. rewrite Heq, Hs.
  assert (Hcases : weekday t = 0 \/ weekday t = 1 \/ weekday t = 2 \/
                   weekday t = 3 \/ weekday t = 4 \/ weekday t = 5 \/
                   weekday t = 6) by lia.
  destruct Hcases as [H|[H|[H|[H|[H|[H|H]]]]]]; rewrite H; vm_compute;
    split; discriminate.
Qed.

Lemma filter_nil_iff {A} (f : A -> bool) (l : list A) :
  filter f l = [] <-> forall x, In x l -> f x = false.
Proof using Type.
  induction l as [|y l IH]; simpl.
  - split; [intros _ x []|reflexivity].
  - destruct (f y) eqn:E.
    + split; [discriminate|]. intros H. specialize (H y (or_introl eq_refl)).
      congruence.
    + rewrite IH. split.
      * intros H x [<-|Hx]; auto.
      * intros H x Hx. apply H. now right.
Qed.

(** X14. The halt of lines 100 to 102. The run stops for want of priority leads
    exactly when no row of the table is under either rule at the instant
    the clock reads; otherwise the filter hands on a table that is not
    empty. *)
Theorem no_priority_leads_halts
        (df : DataFrame) (reg dates : list Cell) (w : World) :
  rectangular df ->
  lookup "Registro" (df_columns df) = Some reg ->
  lookup "Data do Atendimento" (df_columns df) = Some dates ->
  (fst (priority_stage df w) = Stop NoPriorityLeads <->
   forall ir, In ir (iterrows df) ->
     ~ (keyword_rule (snd ir) \/ staleness_rule (clock w) (snd ir))) /\
  (forall p, fst (priority_stage df w) = Ret p -> df_index p <> []).
Proof using Type.
  intros Hrect Hreg Hdat.
  destruct (select_priority_rows (clock w) df reg dates Hrect Hreg Hdat)
    as (sel & Hsel & Hrows).
  assert (Hcols : df_columns sel <> []).
  { rewrite (select_priority_eq (clock w) df reg dates Hreg Hdat) in Hsel.
    injection Hsel as <-. unfold take_rows. cbn [df_columns].
    destruct (df_columns df); [discriminate|]. discriminate. }
  assert (Hidx : df_index sel
                 = map fst (filter (fun ir => row_mask (clock w) (snd ir))
                                   (iterrows df))).
  { rewrite <- Hrows. unfold iterrows. now rewrite rows_of_fst. }
  assert (Hrun : fst (priority_stage df w)
                 = if df_empty (reset_index sel)
                   then Stop NoPriorityLeads else Ret (reset_index sel)).
  { unfold priority_stage, mbind, Timestamp_now, lift, mret, df_priority.
    rewrite Hsel. cbn [obind]. now destruct (df_empty (reset_index sel)). }
  assert (Hempty : df_empty (reset_index sel) = true <-> df_index sel = []).
  { unfold df_empty, reset_index. cbn [df_index df_columns].
    destruct (df_index sel) as [|i idx]; simpl.
    - split; reflexivity.
    - destruct (df_columns sel); [contradiction|].
      split; discriminate. }
  rewrite Hrun. clear Hrun.
  set (b := df_empty (reset_index sel)) in *. clearbody b. split.
  - split.
    + intros H. destruct b; [|discriminate].
      pose proof (proj1 Hempty eq_refl) as E.
      rewrite Hidx in E. apply map_eq_nil in E.
      intros ir Hin Hrule. apply row_mask_spec in Hrule.
      rewrite (proj1 (filter_nil_iff _ _) E ir Hin) in Hrule. discriminate.
    + intros H.
      assert (E : df_index sel = []).
      { rewrite Hidx.
        replace (filter (fun ir => row_mask (clock w) (snd ir)) (iterrows df))
          with (@nil (nat * Row)); [reflexivity|].
        symmetry. apply filter_nil_iff. intros ir Hin.
        destruct (row_mask (clock w) (snd ir)) eqn:Em; [|reflexivity].
        exfalso. apply (H ir Hin). now apply row_mask_spec. }
      apply Hempty in E. now rewrite E.
  - intros p Hp. destruct b; [discriminate|].
    injection Hp as <-. cbn [reset_index df_index]. intros Hnil.
    assert (E' : df_index sel = []).
    { destruct (df_index sel); [reflexivity|discriminate]. }
    apply Hempty in E'. discriminate.
Qed.

Lemma same_letter_sym (a b : N) : same_letter a b -> same_letter b a.
Proof using Type.
  unfold same_letter. intros [H|H]; [left|right]; now symmetry.
Qed.

Lemma contains_nocase_same_letters (w s s' : pystr) :
  In w keyword_set ->
  Forall2 same_letter s s' ->
  contains_nocase w s -> contains_nocase w s'.
Proof using Type.
  intros Hw HF (pre & mid & post & -> & Hmid).
  apply Forall2_app_inv_l in HF.
  destruct HF as (pre' & rest' & Hpre & Hrest & ->).
  apply Forall2_app_inv_l in Hrest.
  destruct Hrest as (mid' & post' & Hmm & Hpost & ->).
  exists pre', mid', post'. split; [reflexivity|].
  assert (Hlet : forall p, In p w -> In p (List.concat keyword_set)).
  { intros p Hp. apply in_concat. exists w. auto. }
  clear -Hmid Hmm Hlet. revert mid' Hmm.
  induction Hmid as [|p c w mid Hpc Hmid IH]; intros mid' Hmm.
  - inversion Hmm. constructor.
  - inversion Hmm as [|? c' ? mid'' Hcc Hmm']; subst. constructor.
    + apply (same_letter_carries p c c'); [apply Hlet; now left| |]; assumption.
    + apply IH; [intros q Hq; apply Hlet; now right|exact Hmm'].
Qed.

(** X16. Letter case in the notes does not count. Two texts that are the
    same letter by letter, letter case apart, are treated alike by the
    keyword search of lines 93 and 94. *)
Theorem keyword_search_ignores_case (s s' : pystr) :
  Forall2 same_letter s s' ->
  re_search keyword_set s = re_search keyword_set s'.
Proof using Type.
  intros HF. apply eq_true_iff_eq. rewrite !keyword_search_spec.
  split; intros (w & Hin & Hc); exists w; (split; [exact Hin|]).
  - now apply (contains_nocase_same_letters w s s').
  - apply (contains_nocase_same_letters w s' s); try assumption.
    clear -HF. induction HF; constructor; [now apply same_letter_sym|assumption].
Qed.

Lemma occurs_suffix (t : N -> N -> bool) (pre word s : pystr) :
  occurs t (pre ++ word) s -> occurs t word s.
Proof using Type.
  intros (a & mid & b & Hs & HF).
  apply Forall2_app_inv_l in HF. destruct HF as (m1 & m2 & H1 & H2 & ->).
  exists (a ++ m1), m2, b. split; [|exact H2].
  rewrite Hs. now rewrite <- !app_assoc.
Qed.

(** X17. The alternative "novo repique" of line 93 selects nothing of its own: a
    text that holds it holds "repique", so the mask is the same without
    it. *)
Theorem novo_repique_is_redundant (s : pystr) :
  re_search keyword_set s
  = re_search [u "repique"; u "objeção"; u "objeções"; u "urgente";
               u "fechar"; u "matricula"; u "interessado"; u "proposta"] s.
Proof using Type.
  apply eq_true_iff_eq. rewrite !re_search_spec. split.
  - intros (w & Hin & Hc). unfold keyword_set in Hin.
    destruct Hin as [<-|[<-|Hin]].
    + exists (u "repique"). split; [now left|exact Hc].
    + exists (u "repique"). split; [now left|].
      apply (occurs_suffix literal_ignorecase (u "novo ")). exact Hc.
    + exists w. split; [now right|exact Hc].
  - intros (w & Hin & Hc). exists w. split; [|exact Hc].
    destruct Hin as [<-|Hin]; [now left|]. right. right. exact Hin.
Qed.

Lemma split_go_tokens (s : pystr) :
  forall cur,
    forallb (fun c => negb (isspace c)) cur = true ->
    Forall (fun w => w <> [] /\ forallb (fun c => negb (isspace c)) w = true)
           (split_go cur s).
Proof using Type.
  assert (Hrev : forall cur, forallb (fun c => negb (isspace c)) cur = true ->
                             forallb (fun c => negb (isspace c)) (rev cur) = true).
  { intros cur H. apply forallb_forall. intros x Hx.
    rewrite forallb_forall in H. apply H. now apply in_rev. }
  induction s as [|c s IH]; intros cur Hcur; simpl.
  - destruct cur as [|x cur]; constructor; [|constructor].
    split; [|now apply Hrev].
    intros E. apply (f_equal (@length N)) in E.
    rewrite length_rev in E. discriminate.
  - destruct (isspace c) eqn:Ec.
    + destruct cur as [|x cur]; [now apply IH|].
      constructor; [|now apply IH]. split; [|now apply Hrev].
      intros E. apply (f_equal (@length N)) in E.
      rewrite length_rev in E. discriminate.
    + apply IH. simpl. now rewrite Ec.
Qed.

(** X6. The agent's name sent to the service and written in the fallback is
    never empty and holds no whitespace: it is a word of the cell, or
    "N/A". *)
Theorem first_word_is_a_word (c : Cell) (w : pystr) :
  first_word c = Ret w ->
  w <> [] /\ forallb (fun ch => negb (isspace ch)) w = true.
Proof using Type.
  unfold first_word. destruct (notna c).
  - pose proof (split_go_tokens (py_str c) [] eq_refl) as H.
    unfold split. destruct (split_go [] (py_str c)) as [|x l]; [discriminate|].
    intros E. injection E as <-. apply Forall_cons_iff in H. apply H.
  - intros E. injection E as <-. split; [discriminate|reflexivity].
Qed.

(** ** The button *)

Lemma priority_stage_world (df : DataFrame) (w : World) :
  snd (priority_stage df w) = w.
Proof using Type.
  unfold priority_stage, mbind, Timestamp_now, lift, mret.
  destruct (df_priority (clock w) df) as [p| |]; [|reflexivity..].
  destruct (df_empty p); reflexivity.
Qed.

(** X8. Without the button no lead is processed. Whatever the sheet and
    the clock are and however the stages before the button end, the
    service is not called, the loop of [gerar_relatorio] shows nothing, and
    a run that reaches its end has no report. *)
Theorem no_button_no_report (inp : Inputs) (w : World) :
  button inp = false ->
  snd (pipeline inp w) = w /\
  forall r, fst (pipeline inp w) = Ret r -> r = None.
Proof using Type.
  intros Hb. unfold pipeline, mbind at 1, lift.
  destruct (load (workbook inp)) as [df| |]; [|split; [reflexivity|discriminate]..].
  unfold mbind. pose proof (priority_stage_world df w) as Hw.
  destruct (priority_stage df w) as [[p| |] w']; simpl in Hw; subst w';
    [|split; [reflexivity|discriminate]..].
  rewrite Hb. split; [reflexivity|]. intros r E. now injection E as <-.
Qed.



(** ** The exceptions of the report *)

Lemma split_go_nil (s : pystr) :
  forall cur, split_go cur s = [] -> cur = [] /\ forallb isspace s = true.
Proof using Type.
  induction s as [|c s IH]; intros cur H; simpl in *.
  - destruct cur; [auto|discriminate].
  - destruct (isspace c).
    + destruct cur; [|discriminate]. destruct (IH [] H) as [_ Hs]. auto.
    + destruct (IH (c :: cur) H) as [Hc _]. discriminate.
Qed.

Lemma lead_text_cases (row : Row) :
  loaded_row row ->
  (exists l, lead_text row = Ret l) \/
  (exists a, lookup "Atendente" row = Some (Str a) /\
             forallb isspace a = true).
Proof using Type.
  intros (a & r & n & t & Ha & Hr & Hn & Hd).
  destruct (split a) as [|word rest] eqn:E.
  - right. exists a. split; [exact Ha|]. now apply (split_go_nil a []).
  - left. unfold lead_text, getkey. rewrite Ha. unfold obind at 1.
    unfold first_word. cbn [notna py_str]. rewrite E. unfold obind at 1.
    rewrite Hr. unfold obind at 1. rewrite Hn. unfold obind at 1.
    rewrite Hd. eexists. reflexivity.
Qed.

Lemma rows_built_or_blank (rows : list (nat * Row)) :
  Forall (fun ir => loaded_row (snd ir)) rows ->
  (exists leads, Forall2 (fun ir l => lead_text (snd ir) = Ret l) rows leads) \/
  (exists pre bad post a,
      rows = pre ++ bad :: post /\
      Forall (fun ir => exists l, lead_text (snd ir) = Ret l) pre /\
      lookup "Atendente" (snd bad) = Some (Str a) /\
      forallb isspace a = true).
Proof using Type.
  induction 1 as [|ir rows Hrow HF IH].
  - left. exists []. constructor.
  - destruct (lead_text_cases (snd ir) Hrow) as [[l Hl]|(a & Ha & Hb)].
    + destruct IH as [[leads Hleads]|(pre & bad & post & a & -> & Hpre & Ha & Hb)].
      * left. exists (l :: leads). now constructor.
      * right. exists (ir :: pre), bad, post, a.
        repeat split; try assumption. constructor; eauto.
    + right. exists [], ir, rows, a. repeat split; try assumption.
      constructor.
Qed.

Lemma all_text_raise (secs : list (option pystr)) (e : Exn) :
  all_text secs = Raise e -> e = TypeError /\ In None secs.
Proof using Type.
  induction secs as [|[s|] secs IH]; simpl; intros H.
  - discriminate.
  - destruct (all_text secs) as [texts| |]; simpl in H; try discriminate.
    injection H as <-. destruct (IH eq_refl) as [He Hin]. auto.
  - injection H as <-. auto.
Qed.

Lemma all_text_no_stop (secs : list (option pystr)) (n : Notice) :
  all_text secs <> Stop n.
Proof using Type.
  induction secs as [|[s|] secs IH]; simpl; try discriminate.
  destruct (all_text secs) as [texts|e|m]; simpl; try discriminate.
  intros H. injection H as ->. now apply IH.
Qed.

Lemma sections_for_none (leads : list LeadText) :
  forall s, In None (sections_for s leads) ->
            In (Content None) (api_trace s leads).
Proof using Type.
  unfold sections_for.
  induction leads as [|l leads IH]; intros s Hin; [contradiction|].
  simpl in *. destruct Hin as [Hin|Hin].
  - left. destruct (fst (create s agent_prompt (user_content l))) as [c|];
      simpl in Hin; [now rewrite Hin|discriminate].
  - right. now apply IH.
Qed.

(** X7. The exceptions of the report and their causes. On rows as the
    loader leaves them (texts under the agent and the notes, a timestamp
    under the date) [gerar_relatorio] never halts the run, and when it ends
    with an exception this is the [IndexError] of line 166, some row having
    an agent name that is empty or all whitespace, or the [TypeError] of
    line 208, every text having been built and some call having answered
    without content. *)
Theorem gerar_relatorio_exceptions (df : DataFrame) (w : World) :
  Forall (fun ir => loaded_row (snd ir)) (iterrows df) ->
  (forall n, fst (gerar_relatorio df w) <> Stop n) /\
  (forall e, fst (gerar_relatorio df w) = Raise e ->
     (e = IndexError /\
      exists ir a, In ir (iterrows df) /\
                   lookup "Atendente" (snd ir) = Some (Str a) /\
                   forallb isspace a = true) \/
     (e = TypeError /\
      exists leads,
        Forall2 (fun ir l => lead_text (snd ir) = Ret l) (iterrows df) leads /\
        In (Content None) (api_trace (api w) leads))).
Proof using Type.
  intros HF.
  destruct (rows_built_or_blank (iterrows df) HF)
    as [[leads Hleads]|(pre & bad & post & a & Hrows & Hpre & Ha & Hb)].
  - destruct (relatorio_completo_run (length (df_index df)) (iterrows df)
                leads Hleads w) as (w' & Hrun & _).
    assert (E : fst (gerar_relatorio df w)
                = match all_text (sections_for (api w) leads) with
                  | Ret texts => Ret (join texts)
                  | Raise e => Raise e
                  | Stop n => Stop n
                  end).
    { unfold gerar_relatorio, sections_of, mbind at 1. rewrite Hrun.
      unfold mbind, lift, mret.
      destruct (all_text (sections_for (api w) leads)); reflexivity. }
    rewrite E. split.
    + intros n. pose proof (all_text_no_stop (sections_for (api w) leads)) as Hn.
      destruct (all_text (sections_for (api w) leads)); try discriminate.
      intros H. injection H as ->. now apply (Hn n).
    + intros e He. right.
      destruct (all_text (sections_for (api w) leads)) as [texts|e'|n] eqn:Ea;
        try discriminate.
      injection He as ->. destruct (all_text_raise _ _ Ea) as [-> Hin].
      split; [reflexivity|]. exists leads. split; [exact Hleads|].
      now apply sections_for_none.
  - pose proof (gerar_relatorio_aborts df pre bad post IndexError w Hrows Hpre
                  (lead_text_blank (snd bad) a Ha Hb)) as E.
    rewrite E. split; [discriminate|].
    intros e He. injection He as <-. left. split; [reflexivity|].
    exists bad, a. repeat split; try assumption.
    rewrite Hrows. apply in_or_app. right. now left.
Qed.

End Script.

(** ** The statements at work on the sample data *)

Lemma sample_table_rectangular : rectangular sample_table.
Proof. repeat constructor. Qed.

Lemma sample_table_labels : NoDup (df_index sample_table).
Proof.
  change (df_index sample_table) with [0%nat; 1%nat].
  repeat constructor; simpl; intuition discriminate.
Qed.

Lemma priority_filter_or_semantics_witness :
  rectangular sample_table /\
  NoDup (df_index sample_table) /\
  exists sel p,
    select_priority sample_now sample_table = Ret sel /\
    df_priority sample_now sample_table = Ret p.
Proof.
  split; [exact sample_table_rectangular|].
  split; [exact sample_table_labels|].
  destruct (priority_filter_or_semantics sample_now sample_table _ _
              sample_table_rectangular sample_table_labels
              eq_refl eq_refl) as (sel & p & H1 & H2 & _).
  exists sel, p. split; assumption.
Defined.

Lemma priority_filter_order_preserving_witness :
  rectangular sample_table /\
  exists sel ps,
    select_priority sample_now sample_table = Ret sel /\
    StronglySorted lt ps /\
    map Some (iterrows sel) = map (nth_error (iterrows sample_table)) ps.
Proof.
  split; [exact sample_table_rectangular|].
  destruct (priority_filter_order_preserving sample_now sample_table _ _
              sample_table_rectangular eq_refl eq_refl)
    as (sel & p & ps & H1 & _ & H3 & H4 & _).
  exists sel, ps. repeat split; assumption.
Defined.

Lemma staleness_monday_2025_01_06_witness :
  0 <= 9 * 3600 * ns_per_second < ns_per_day /\
  re_search keyword_set (u "ligar depois") = false /\
  sub_BusinessDay sample_now 2
  = timestamp_of_date 2025 1 2 + 9 * 3600 * ns_per_second.
Proof.
  assert (H9 : 0 <= 9 * 3600 * ns_per_second < ns_per_day) by (vm_compute; intuition discriminate).
  assert (H0 : 0 <= 0 < ns_per_day) by (vm_compute; intuition discriminate).
  split; [exact H9|]. split; [reflexivity|].
  destruct (staleness_monday_2025_01_06 (9 * 3600 * ns_per_second) 0 0
              [Str (u "Ana Souza"); Str (u "Caio Reis")]
              [Str (u "Carla Dias"); Str (u "Davi")]
              (u "ligar depois") (u "sem retorno")
              H9 H0 H0 eq_refl eq_refl eq_refl eq_refl) as (_ & H & _).
  exact H.
Defined.

(** C6, as the claim has it: the filter would give the same answer whatever
    the clock reads. It does not: the second contact of the sample table is
    left out on Monday 2025-01-06 and kept two days later. *)
Lemma priority_stage_reads_the_clock :
  fst (priority_stage sample_table
         {| clock := sample_now; api := tt; screen := [] |})
  <> fst (priority_stage sample_table
            {| clock := sample_now + 2 * ns_per_day; api := tt;
               screen := [] |}).
Proof. vm_compute. discriminate. Qed.

Lemma priority_stage_depends_on_clock_only_witness :
  clock {| clock := sample_now; api := tt; screen := [] |}
  = clock {| clock := sample_now; api := tt; screen := [Progress 1 1] |} /\
  fst (priority_stage sample_table
         {| clock := sample_now; api := tt; screen := [] |})
  = fst (priority_stage sample_table
           {| clock := sample_now; api := tt; screen := [Progress 1 1] |}).
Proof.
  split; [reflexivity|].
  apply (priority_stage_depends_on_clock_only unit sample_table
           {| clock := sample_now; api := tt; screen := [] |}
           {| clock := sample_now; api := tt; screen := [Progress 1 1] |}
           eq_refl).
Defined.

Lemma sample_sheet_rectangular : rectangular sample_sheet.
Proof. repeat constructor. Qed.



Lemma missing_date_column_is_a_read_failure_witness :
  lookup "Data do Atendimento"
         (df_columns {| df_index := [0%nat];
                        df_columns := [("Registro", [Str (u "urgente")])] |})
  = None /\
  load (fun _ _ => None)
       (Sheet {| df_index := [0%nat];
                 df_columns := [("Registro", [Str (u "urgente")])] |})
  = Stop (LoadFailed (KeyError "Data do Atendimento")).
Proof.
  split; [reflexivity|].
  apply (missing_date_column_is_a_read_failure (fun _ _ => None)
           {| df_index := [0%nat];
              df_columns := [("Registro", [Str (u "urgente")])] |} eq_refl).
Defined.

Lemma blank_agent_name_aborts_report_witness :
  forallb isspace (u " ") = true /\
  first_word (Str (u " ")) = Raise IndexError.
Proof.
  split; [reflexivity|].
  apply (blank_agent_name_aborts_report unit
           (fun s _ _ => (Content (Some (u "ok")), s)) (u "prompt") (u " ")
           eq_refl).
Defined.

Lemma sample_leads_built :
  Forall2 (fun ir l => lead_text (snd ir) = Ret l)
          (iterrows sample_table) sample_leads.
Proof. repeat constructor. Qed.

Lemma gerar_relatorio_fault_isolation_witness :
  nth_error (api_trace flaky_service (u "prompt") 0%nat sample_leads) 1
  = Some ApiError /\
  exists texts,
    fst (gerar_relatorio flaky_service (u "prompt") sample_table
           {| clock := sample_now; api := 0%nat; screen := [] |})
    = Ret (join texts) /\
    nth_error texts 1
    = option_map fallback_section (nth_error sample_leads 1).
Proof.
  split; [reflexivity|].
  destruct (gerar_relatorio_fault_isolation nat flaky_service (u "prompt")
              sample_table sample_leads 1 _
              {| clock := sample_now; api := 0%nat; screen := [] |}
              sample_leads_built eq_refl eq_refl)
    as (texts & Hrun & _ & Hk & _).
  - intros i r Hi Hr. destruct i as [|[|i]].
    + injection Hr as <-. eexists. reflexivity.
    + now contradiction Hi.
    + destruct i; discriminate Hr.
  - exists texts. split; [exact Hrun|exact Hk].
Defined.

Lemma gerar_relatorio_trusts_answers_verbatim_witness :
  api_trace echo_service (u "prompt") 0%nat sample_leads
  = map (fun t => Content (Some t)) (map user_content sample_leads) /\
  fst (gerar_relatorio echo_service (u "prompt") sample_table
         {| clock := sample_now; api := 0%nat; screen := [] |})
  = Ret (join (map user_content sample_leads)).
Proof.
  split; [reflexivity|].
  apply (gerar_relatorio_trusts_answers_verbatim nat echo_service (u "prompt")
           sample_table sample_leads (map user_content sample_leads)
           {| clock := sample_now; api := 0%nat; screen := [] |}
           sample_leads_built eq_refl).
Defined.

Lemma gerar_relatorio_content_none_witness :
  In (Content None) (api_trace silent_service (u "prompt") 0%nat sample_leads) /\
  fst (gerar_relatorio silent_service (u "prompt") sample_table
         {| clock := sample_now; api := 0%nat; screen := [] |})
  = Raise TypeError.
Proof.
  split; [left; reflexivity|].
  apply (gerar_relatorio_content_none nat silent_service (u "prompt")
           sample_table sample_leads
           {| clock := sample_now; api := 0%nat; screen := [] |}
           sample_leads_built (or_introl eq_refl)).
Defined.

Lemma gerar_relatorio_one_call_per_lead_witness :
  api (snd (gerar_relatorio flaky_service (u "prompt") sample_table
              {| clock := sample_now; api := 0%nat; screen := [] |}))
  = 2%nat.
Proof.
  apply (gerar_relatorio_one_call_per_lead nat flaky_service (u "prompt")
           sample_table sample_leads
           {| clock := sample_now; api := 0%nat; screen := [] |}
           sample_leads_built).
Defined.


Lemma first_word_is_a_word_witness :
  first_word (Str (u "Carla Dias")) = Ret (u "Carla") /\
  u "Carla" <> [] /\
  forallb (fun ch => negb (isspace ch)) (u "Carla") = true.
Proof.
  split; [reflexivity|].
  apply (first_word_is_a_word (Str (u "Carla Dias")) (u "Carla") eq_refl).
Defined.

Lemma missing_columns_names_one_column_witness :
  load (fun _ _ => None) (Sheet nameless_sheet)
  = Stop (MissingColumns (missing_cols nameless_sheet)) /\
  missing_cols nameless_sheet = ["Nome do Atendido"].
Proof.
  split; [reflexivity|].
  apply (missing_columns_names_one_column (fun _ _ => None)
           (Sheet nameless_sheet) (missing_cols nameless_sheet) eq_refl).
Defined.

Lemma absent_read_column_is_a_read_failure_witness :
  lookup "Atendente"
         (df_columns {| df_index := [0%nat];
                        df_columns :=
                          [("Data do Atendimento", [Ts 0]);
                           ("Registro", [Str (u "urgente")])] |})
  = None /\
  exists c,
    load (fun _ _ => None)
         (Sheet {| df_index := [0%nat];
                   df_columns :=
                     [("Data do Atendimento", [Ts 0]);
                      ("Registro", [Str (u "urgente")])] |})
    = Stop (LoadFailed (KeyError c)).
Proof.
  split; [reflexivity|].
  destruct (absent_read_column_is_a_read_failure (fun _ _ => None)
              {| df_index := [0%nat];
                 df_columns :=
                   [("Data do Atendimento", [Ts 0]);
                    ("Registro", [Str (u "urgente")])] |}
              (or_intror (or_intror eq_refl))) as (c & _ & _ & H).
  exists c. exact H.
Defined.

Lemma sample_sheet_loads :
  exists df', load (fun _ _ => None) (Sheet sample_sheet) = Ret df'.
Proof. eexists. vm_compute. reflexivity. Qed.

Lemma load_keeps_frame_shape_witness :
  rectangular sample_sheet /\
  exists df',
    load (fun _ _ => None) (Sheet sample_sheet) = Ret df' /\
    rectangular df' /\
    map fst (df_columns df') = map fst (df_columns sample_sheet).
Proof.
  split; [exact sample_sheet_rectangular|].
  destruct sample_sheet_loads as [df' Hload]. exists df'.
  destruct (load_keeps_frame_shape (fun _ _ => None) sample_sheet df'
              sample_sheet_rectangular Hload) as (H1 & H2 & _).
  repeat split; assumption.
Defined.

Lemma no_priority_leads_halts_witness :
  rectangular sample_table /\
  forall p,
    fst (priority_stage sample_table
           {| clock := sample_now; api := tt; screen := [] |}) = Ret p ->
    df_index p <> [].
Proof.
  split; [exact sample_table_rectangular|].
  apply (no_priority_leads_halts unit sample_table _ _
           {| clock := sample_now; api := tt; screen := [] |}
           sample_table_rectangular eq_refl eq_refl).
Defined.

Lemma loaded_notes_and_agents_are_str_of_cells_witness :
  is_datetime64 [Str (u "Quer fechar a MATRICULA"); NaN;
                 Str (u "ligar depois")] = false /\
  exists df' reg',
    load (fun _ _ => None) (Sheet sample_sheet) = Ret df' /\
    lookup "Registro" (df_columns df') = Some reg' /\
    combine (df_index df') reg'
    = [(0%nat, Str (u "Quer fechar a MATRICULA"));
       (2%nat, Str (u "ligar depois"))].
Proof.
  split; [reflexivity|].
  destruct sample_sheet_loads as [df' Hload]. exists df'.
  destruct (loaded_notes_and_agents_are_str_of_cells (fun _ _ => None)
              sample_sheet df' _ _ _ eq_refl eq_refl eq_refl Hload)
    as (reg' & atend' & Hr & _ & Hc & _).
  exists reg'. split; [exact Hload|]. split; [exact Hr|].
  rewrite (Hc eq_refl). vm_compute. reflexivity.
Defined.

Lemma keyword_search_ignores_case_witness :
  Forall2 same_letter (u "Quer FECHAR") (u "quer fechar") /\
  re_search keyword_set (u "Quer FECHAR")
  = re_search keyword_set (u "quer fechar").
Proof.
  assert (H : Forall2 same_letter (u "Quer FECHAR") (u "quer fechar")).
  { repeat constructor; apply same_letterb_spec; reflexivity. }
  split; [exact H|].
  apply (keyword_search_ignores_case (u "Quer FECHAR") (u "quer fechar") H).
Defined.

Lemma no_button_no_report_witness :
  snd (pipeline (fun _ _ => None) echo_service (u "prompt")
         {| secrets := None; environ := [];
            workbook := Sheet sample_sheet; button := false |}
         {| clock := sample_now; api := 0%nat; screen := [] |})
  = {| clock := sample_now; api := 0%nat; screen := [] |}.
Proof.
  apply (no_button_no_report (fun _ _ => None) nat echo_service (u "prompt")
           {| secrets := None; environ := [];
              workbook := Sheet sample_sheet; button := false |}
           {| clock := sample_now; api := 0%nat; screen := [] |} eq_refl).
Defined.

Lemma sample_table_rows_loaded :
  Forall (fun ir => loaded_row (snd ir)) (iterrows sample_table).
Proof.
  repeat constructor; do 4 eexists; repeat split; reflexivity.
Qed.

Lemma gerar_relatorio_exceptions_witness :
  fst (gerar_relatorio silent_service (u "prompt") sample_table
         {| clock := sample_now; api := 0%nat; screen := [] |})
  = Raise TypeError /\
  exists leads,
    Forall2 (fun ir l => lead_text (snd ir) = Ret l)
            (iterrows sample_table) leads /\
    In (Content None) (api_trace silent_service (u "prompt") 0%nat leads).
Proof.
  assert (E : fst (gerar_relatorio silent_service (u "prompt") sample_table
                     {| clock := sample_now; api := 0%nat; screen := [] |})
              = Raise TypeError) by (vm_compute; reflexivity).
  split; [exact E|].
  destruct (gerar_relatorio_exceptions nat silent_service (u "prompt")
              sample_table
              {| clock := sample_now; api := 0%nat; screen := [] |}
              sample_table_rows_loaded) as [_ H].
  destruct (H TypeError E) as [[H1 _]|[_ H2]]; [discriminate|exact H2].
Defined.

Lemma missing_secrets_file_is_no_fallback_witness :
  app (fun _ _ => None) (fun _ => Some 0%nat) echo_service (u "prompt") false
      {| secrets := None;
         environ := [("OPENAI_API_KEY", u "sk-test")];
         workbook := Sheet sample_sheet; button := true |} sample_now
  = (Raise SecretNotFound, []).
Proof.
  apply (missing_secrets_file_is_no_fallback (fun _ _ => None) nat
           (fun _ => Some 0%nat) echo_service (u "prompt") false
           {| secrets := None;
              environ := [("OPENAI_API_KEY", u "sk-test")];
              workbook := Sheet sample_sheet; button := true |} sample_now
           eq_refl).
Defined.

Lemma credential_from_secrets_or_environment_witness :
  resolve_api_key false
    (Some [("openai", STable [("api_key", SText (u "sk-secret"))])])
    [("OPENAI_API_KEY", u "sk-env")]
  = Ret (SText (u "sk-secret")) /\
  resolve_api_key false (Some [("other", SScalar)])
    [("OPENAI_API_KEY", u "sk-env")]
  = Ret (SText (u "sk-env")).
Proof.
  split.
  - destruct (credential_from_secrets_or_environment (fun _ _ => None) nat
                (fun _ => Some 0%nat) echo_service (u "prompt") false
                {| secrets :=
                     Some [("openai",
                            STable [("api_key", SText (u "sk-secret"))])];
                   environ := [("OPENAI_API_KEY", u "sk-env")];
                   workbook := NoBytes; button := false |} sample_now
                _ eq_refl) as [H _].
    apply (H [("api_key", SText (u "sk-secret"))] (u "sk-secret")
             eq_refl eq_refl).
  - destruct (credential_from_secrets_or_environment (fun _ _ => None) nat
                (fun _ => Some 0%nat) echo_service (u "prompt") false
                {| secrets := Some [("other", SScalar)];
                   environ := [("OPENAI_API_KEY", u "sk-env")];
                   workbook := NoBytes; button := false |} sample_now
                _ eq_refl) as [_ [H _]].
    destruct (H (or_introl eq_refl)) as [Henv _].
    apply (Henv (u "sk-env") eq_refl). discriminate.
Defined.
